(** * webgpu-triangle-js: the rotating triangle of [main.js]

    A shallow embedding of [main.js] and the properties of its
    specification.

    The script computes with JavaScript numbers (IEEE 754 binary64) and
    stores its matrices in [Float32Array]s (binary32).  The program text is
    embedded once, over a record [Arith] of the number operations it uses;
    the record is then instantiated

    - by [Binary64.JS], the arithmetic the script runs on (the kernel's
      binary64 floats, and the conversion to binary32 of a [Float32Array]
      element), with [Math.cos] and [Math.sin] as parameters, since
      ECMAScript leaves their values to the implementation;
    - by [Exact.Real], arithmetic on the real numbers without rounding.

    A statement proved for every [Arith] holds in particular of the script
    as it runs. *)

From Stdlib Require Import ZArith NArith QArith Qreals Reals.
From Stdlib Require Import Bool List String Lia Lra Ring.
From Stdlib Require Import Floats Uint63.
Import ListNotations.

Set Warnings "-inexact-float".

Close Scope R_scope.
Close Scope Q_scope.

(** * The program *)

(** ** Numbers *)

Record Arith : Type := {
  num :> Type;
  (** a numeric literal of the source text, given by its exact value *)
  lit : Q -> num;
  (** a natural number as a number *)
  ofNat : nat -> num;
  (** the operators [+], [-], [*] and unary [-]; the script uses the first
      and the last, the properties are stated with all four *)
  add : num -> num -> num;
  sub : num -> num -> num;
  mul : num -> num -> num;
  neg : num -> num;
  (** [Math.cos] and [Math.sin] *)
  Math_cos : num -> num;
  Math_sin : num -> num;
  (** the value an element of a [Float32Array] holds after a number is
      stored in it *)
  fround : num -> num;
  (** [0] and [1] are stored without change *)
  fround_0 : fround (lit 0) = lit 0;
  fround_1 : fround (lit 1) = lit 1;
}.

Arguments lit {_} _.
Arguments ofNat {_} _.
Arguments add {_} _ _.
Arguments sub {_} _ _.
Arguments mul {_} _ _.
Arguments neg {_} _.
Arguments Math_cos {_} _.
Arguments Math_sin {_} _.
Arguments fround {_} _.

(** Arithmetic without rounding: the operations form a commutative ring,
    storing in a [Float32Array] loses nothing, and cosine and sine satisfy
    the Pythagorean identity. *)
Record ExactArith (A : Arith) : Prop := {
  exact_ring :
    ring_theory (R := A) (lit 0) (lit 1) add mul sub neg eq;
  exact_fround : forall x : A, fround x = x;
  exact_ofNat_0 : @ofNat A 0 = lit 0;
  exact_ofNat_S : forall n, @ofNat A (S n) = add (ofNat n) (lit 1);
  exact_pythagoras : forall x : A,
    add (mul (Math_cos x) (Math_cos x)) (mul (Math_sin x) (Math_sin x)) = lit 1;
}.

(** ** The transformation matrix *)

Section Transform.

Context {A : Arith}.

(** [new Float32Array([...])]: every element is converted on the way in. *)
Definition Float32Array (elements : list A) : list A := map fround elements.

(** [Float32Array.BYTES_PER_ELEMENT] *)
Definition BYTES_PER_ELEMENT : N := 4.

(** [.byteLength] of a [Float32Array] *)
Definition byteLength (a : list A) : N :=
  (BYTES_PER_ELEMENT * N.of_nat (List.length a))%N.

Definition createTransformationMatrix (rotation tx ty : A) : list A :=
  let cosTheta := Math_cos rotation in
  let sinTheta := Math_sin rotation in
  Float32Array
    [ cosTheta; neg sinTheta; lit 0; lit 0;   (* First column *)
      sinTheta; cosTheta;     lit 0; lit 0;   (* Second column *)
      lit 0;    lit 0;        lit 1; lit 0;   (* Third column (Z-axis) *)
      tx;       ty;           lit 0; lit 1 ]. (* Fourth column (Translation) *)

(** Reading a 16-element array as a column-major 4x4 matrix: the element
    in row [r] of column [c] is at index [4 * c + r]. *)
Definition entry (m : list A) (r c : nat) : A := nth (4 * c + r) m (lit 0).

Definition column (m : list A) (c : nat) : list A :=
  [entry m 0 c; entry m 1 c; entry m 2 c; entry m 3 c].

(** The upper-left 2x2 block, as the list of its two columns (the order
    in which the array stores it). *)
Definition block2 (m : list A) : list (list A) :=
  [ [entry m 0 0; entry m 1 0]; [entry m 0 1; entry m 1 1] ].

(** Determinant and column products of the upper-left block. *)
Definition det2 (m : list A) : A :=
  sub (mul (entry m 0 0) (entry m 1 1)) (mul (entry m 0 1) (entry m 1 0)).

Definition dot2 (m : list A) (c c' : nat) : A :=
  add (mul (entry m 0 c) (entry m 0 c')) (mul (entry m 1 c) (entry m 1 c')).

Definition orthonormal2 (m : list A) : Prop :=
  dot2 m 0 0 = lit 1 /\ dot2 m 1 1 = lit 1 /\
  dot2 m 0 1 = lit 0 /\ dot2 m 1 0 = lit 0.

End Transform.

(** ** The two arithmetics *)

Module Binary64.

Open Scope float_scope.

Definition ofZ (z : Z) : float :=
  match z with
  | Z0 => 0
  | Zpos p => of_uint63 (Uint63.of_Z (Zpos p))
  | Zneg p => - of_uint63 (Uint63.of_Z (Zpos p))
  end.

(** A decimal literal denotes the binary64 number nearest to its value;
    numerator and denominator of the literals of [main.js] are integers
    binary64 holds exactly, so one correctly rounded division gives it. *)
Definition literal (q : Q) : float := ofZ (Qnum q) / ofZ (Zpos (Qden q)).

(** Rounding to binary32 (24 bits of precision, exponents up to 128),
    nearest with ties to even. *)
Definition binary32 (x : spec_float) : spec_float :=
  match x with
  | S754_finite s m e => binary_round 24 128 s m e
  | _ => x
  end.

(** [Math.fround]: the binary64 value of the binary32 number nearest to
    [x], which is what reading a [Float32Array] element gives back. *)
Definition Math_fround (x : float) : float := SF2Prim (binary32 (Prim2SF x)).

Definition JS (cos sin : float -> float) : Arith :=
  {| num := float;
     lit := literal;
     ofNat := fun n => ofZ (Z.of_nat n);
     add := PrimFloat.add;
     sub := PrimFloat.sub;
     mul := PrimFloat.mul;
     neg := PrimFloat.opp;
     Math_cos := cos;
     Math_sin := sin;
     fround := Math_fround;
     fround_0 := eq_refl;
     fround_1 := eq_refl |}.

(** The literal 0.01 as sign, mantissa and exponent. *)
Definition step : spec_float := S754_finite false 5764607523034235 (-59).

(** A binary64 number above zero: finite and positive, or +infinity. *)
Definition positive_float (x : float) : Prop :=
  Prim2SF x = S754_infinity false \/
  exists m e, Prim2SF x = S754_finite false m e.

(** A positive number with mantissa [m] and exponent [e] that is below
    2^47, or is 2^47 itself. *)
Definition at_most_2p47 (m : positive) (e : Z) : Prop :=
  (Zpos (digits2_pos m) + e <= 47)%Z \/
  (m = 4503599627370496%positive /\ e = (-5)%Z).

(** A binary64 number between 0 and 2^47 = 140737488355328. *)
Definition bounded_angle (x : float) : Prop :=
  Prim2SF x = S754_zero false \/
  exists m e, Prim2SF x = S754_finite false m e /\ at_most_2p47 m e.

End Binary64.

Module Exact.

Definition Real : Arith :=
  {| num := R;
     lit := Q2R;
     ofNat := INR;
     add := Rplus;
     sub := Rminus;
     mul := Rmult;
     neg := Ropp;
     Math_cos := cos;
     Math_sin := sin;
     fround := fun x => x;
     fround_0 := eq_refl;
     fround_1 := eq_refl |}.

End Exact.

(** ** The host

    What the script sees of the browser: the console, the [navigator.gpu]
    entry point, the device with its buffers, the canvas with its click
    listeners, and the animation-frame scheduler.  Every call the script
    makes is recorded, oldest first, in a trace. *)

Open Scope string_scope.
Open Scope list_scope.

(** [GPUBufferUsage] flags *)
Definition GPUBufferUsage_COPY_DST : N := 8.
Definition GPUBufferUsage_VERTEX : N := 32.
Definition GPUBufferUsage_UNIFORM : N := 64.

Record GPUBufferDescriptor : Type := {
  size : N;
  usage : N;
  mappedAtCreation : bool;
}.

Record GPUVertexAttribute : Type := {
  shaderLocation : N;
  format : string;
  offset : N;
}.

Record GPUVertexBufferLayout : Type := {
  arrayStride : N;
  attributes : list GPUVertexAttribute;
}.

Record GPURenderPipelineDescriptor : Type := {
  vertex_module : nat;
  vertex_entryPoint : string;
  vertex_buffers : list GPUVertexBufferLayout;
  fragment_module : nat;
  fragment_entryPoint : string;
  fragment_targets : list string;
  primitive_topology : string;
  layout : string;
}.

(** One entry of a bind group: a binding number and the buffer bound to it. *)
Record GPUBindGroupEntry : Type := {
  binding : N;
  resource_buffer : nat;
}.

(** What the environment offers the script. *)
Record Env : Type := {
  (** [navigator.gpu] is defined *)
  navigator_gpu : bool;
  (** [requestAdapter] resolves to an adapter, not to [null] *)
  adapterAvailable : bool;
  (** [requestDevice] resolves to a device *)
  deviceAvailable : bool;
  preferredCanvasFormat : string;
}.

Section Host.

Context {A : Arith}.

Record GPUColor : Type := { r : A; g : A; b : A; a : A }.

(** The render pass descriptor of the script: one colour attachment. *)
Record GPURenderPassDescriptor : Type := {
  view : option nat;
  loadOp : string;
  clearValue : GPUColor;
  storeOp : string;
}.

(** A buffer of the device.  The script moves data in and out of buffers as
    32-bit floats only, so the contents are kept as [size / 4] such
    elements. *)
Record GPUBuffer : Type := {
  descriptor : GPUBufferDescriptor;
  mapped : bool;
  contents : list A;
}.

Inductive Call : Type :=
| getElementById (id : string)
| requestAdapter (powerPreference : string)
| requestDevice
| console_error (message : string)
| getContext (contextId : string)
| getPreferredCanvasFormat
| configure (fmt alphaMode : string)
| createShaderModule (code : string)
| createBuffer (d : GPUBufferDescriptor)
| setMappedRange (buffer : nat) (data : list A)
| unmap (buffer : nat)
| createRenderPipeline (d : GPURenderPipelineDescriptor)
| getBindGroupLayout (pipeline : nat) (index : N)
| createBindGroup (bindGroupLayout : nat) (entries : list GPUBindGroupEntry)
| addEventListener (type : string)
| writeBuffer (buffer : nat) (bufferOffset : N) (data : list A)
| getCurrentTexture
| createView (texture : nat)
| createCommandEncoder
| beginRenderPass (d : GPURenderPassDescriptor)
| setPipeline (pipeline : nat)
| setBindGroup (index : N) (bindGroup : nat)
| setVertexBuffer (slot : N) (buffer : nat)
| draw (vertexCount instanceCount firstVertex firstInstance : N)
| endPass
| finish
| submit (commandBuffers : list nat)
| requestAnimationFrame.

Record Host : Type := {
  env : Env;
  (** every call made so far, oldest first *)
  calls : list Call;
  (** the buffers of the device, in creation order: a buffer is named by
      its position in this list *)
  buffers : list GPUBuffer;
  (** click listeners registered on the canvas *)
  clickListeners : nat;
  (** callbacks passed to [requestAnimationFrame] and not yet run *)
  animationFrames : nat;
}.

(** The host as the script finds it. *)
Definition fresh (e : Env) : Host :=
  {| env := e; calls := []; buffers := []; clickListeners := 0;
     animationFrames := 0 |}.

(** *** Scripts: computations that act on the host *)

Definition Script (X : Type) : Type := Host -> X * Host.

Definition ret {X} (x : X) : Script X := fun h => (x, h).

Definition bind {X Y} (c : Script X) (k : X -> Script Y) : Script Y :=
  fun h => let (x, h') := c h in k x h'.

End Host.

Arguments GPUColor : clear implicits.
Arguments GPURenderPassDescriptor : clear implicits.
Arguments GPUBuffer : clear implicits.
Arguments Call : clear implicits.
Arguments Host : clear implicits.
Arguments Script : clear implicits.

Notation "x <- c ;; k" := (bind c (fun x => k))
  (at level 61, c at next level, right associativity).
Notation "c ;;; k" := (bind c (fun _ => k))
  (at level 61, right associativity).

Section Program.

Context {A : Arith}.

(** *** Host operations *)

Definition record (c : Call A) (h : Host A) : Host A :=
  {| env := env h; calls := calls h ++ [c]; buffers := buffers h;
     clickListeners := clickListeners h;
     animationFrames := animationFrames h |}.

Definition setBuffers (bs : list (GPUBuffer A)) (h : Host A) : Host A :=
  {| env := env h; calls := calls h; buffers := bs;
     clickListeners := clickListeners h;
     animationFrames := animationFrames h |}.

Definition setClickListeners (n : nat) (h : Host A) : Host A :=
  {| env := env h; calls := calls h; buffers := buffers h;
     clickListeners := n; animationFrames := animationFrames h |}.

Definition setAnimationFrames (n : nat) (h : Host A) : Host A :=
  {| env := env h; calls := calls h; buffers := buffers h;
     clickListeners := clickListeners h; animationFrames := n |}.

(** A call with no result the script uses. *)
Definition call (c : Call A) : Script A unit := fun h => (tt, record c h).

(** A call that creates an object: the object is named by the position of
    the creating call in the trace. *)
Definition create (c : Call A) : Script A nat :=
  fun h => (List.length (calls h), record c h).

Definition navigator_gpu_requestAdapter (powerPreference : string)
  : Script A bool :=
  fun h => (adapterAvailable (env h), record (requestAdapter powerPreference) h).

Definition adapter_requestDevice : Script A bool :=
  fun h => (deviceAvailable (env h), record requestDevice h).

Definition navigator_gpu_getPreferredCanvasFormat : Script A string :=
  fun h => (preferredCanvasFormat (env h), record getPreferredCanvasFormat h).

(** [device.createBuffer]: a new buffer, filled with zeros, mapped when the
    descriptor says so. *)
Definition device_createBuffer (d : GPUBufferDescriptor) : Script A nat :=
  fun h =>
    let buffer :=
      {| descriptor := d; mapped := mappedAtCreation d;
         contents := repeat (lit 0) (N.to_nat (size d / BYTES_PER_ELEMENT)) |} in
    (List.length (buffers h),
     setBuffers (buffers h ++ [buffer]) (record (createBuffer d) h)).

(** [data] written over [old] from element [i] on. *)
Definition overwrite (old : list A) (i : nat) (data : list A) : list A :=
  firstn i old ++ data ++ skipn (i + List.length data) old.

Definition updateBuffer (f : GPUBuffer A -> GPUBuffer A) (buffer : nat)
  (bs : list (GPUBuffer A)) : list (GPUBuffer A) :=
  match nth_error bs buffer with
  | Some x => firstn buffer bs ++ f x :: skipn (S buffer) bs
  | None => bs
  end.

Definition store (i : nat) (data : list A) (x : GPUBuffer A) : GPUBuffer A :=
  {| descriptor := descriptor x; mapped := mapped x;
     contents := overwrite (contents x) i data |}.

(** [new Float32Array(buffer.getMappedRange()).set(data)] with a
    [Float32Array] as data: the elements are copied as they are to the start
    of the buffer when it is mapped (there is no range to write to
    otherwise). *)
Definition mappedRange_set (buffer : nat) (data : list A) : Script A unit :=
  fun h =>
    (tt, setBuffers
           (updateBuffer
              (fun x => if mapped x then store 0 data x else x)
              buffer (buffers h))
           (record (setMappedRange buffer data) h)).

Definition buffer_unmap (buffer : nat) : Script A unit :=
  fun h =>
    (tt, setBuffers
           (updateBuffer
              (fun x => {| descriptor := descriptor x; mapped := false;
                           contents := contents x |})
              buffer (buffers h))
           (record (unmap buffer) h)).

(** [device.queue.writeBuffer(buffer, bufferOffset, data)] with a
    [Float32Array] as data: the elements land at byte [bufferOffset]. *)
Definition queue_writeBuffer (buffer : nat) (bufferOffset : N) (data : list A)
  : Script A unit :=
  fun h =>
    (tt, setBuffers
           (updateBuffer
              (store (N.to_nat (bufferOffset / BYTES_PER_ELEMENT)) data)
              buffer (buffers h))
           (record (writeBuffer buffer bufferOffset data) h)).

Definition canvas_addEventListener (type : string) : Script A unit :=
  fun h =>
    (tt, setClickListeners
           (if String.eqb type "click" then S (clickListeners h)
            else clickListeners h)
           (record (addEventListener type) h)).

Definition window_requestAnimationFrame : Script A unit :=
  fun h =>
    (tt, setAnimationFrames (S (animationFrames h))
           (record requestAnimationFrame h)).

(** [passEncoder.draw(vertexCount, instanceCount)]: WebGPU gives
    [instanceCount] the default 1, and [firstVertex] and [firstInstance]
    the default 0. *)
Definition passEncoder_draw (vertexCount : N) (instanceCount : option N)
  : Script A unit :=
  call (draw vertexCount
          (match instanceCount with Some n => n | None => 1%N end) 0 0).

(** ** The script *)

(** Define shaders (WGSL) *)
Definition shaderCode : string := "

  @group(0) @binding(0) var<uniform> transformationMatrix: mat4x4<f32>;

  struct VertexOutput {
    @builtin(position) position: vec4<f32>,  // Position of the vertex
    @location(0) fragColor: vec3<f32>      // Color passed to the fragment shader
  };

  @vertex
  fn vertexMain(
    @location(0) position: vec2<f32>,  // Input: position from the vertex buffer
    @location(1) color: vec3<f32>      // Input: color from the vertex buffer
  ) -> VertexOutput {

    // Convert position to vec3 to apply 4x4 matrix
    let transformedPosition = transformationMatrix * vec4<f32>(position, 0.0, 1.0);

    var output: VertexOutput;
    output.position = vec4<f32>(transformedPosition.xy, 0.0, 1.0);
    output.fragColor = color;
    return output;
  }

  @fragment
  fn fragmentMain(
    @location(0) fragColor: vec3<f32>  // Input: interpolated color from the vertex shader
  ) -> @location(0) vec4<f32> {
    return vec4<f32>(fragColor, 1.0); // Output the color with full opacity
  }
".

(** Define the vertex data *)
Definition vertexData : list A :=
  Float32Array
    [ (* Position (x, y) *)                (* Color (r, g, b) *)
      lit 0;            lit (6667#10000);       lit 1; lit 0; lit 0;
      neg (lit (5#10)); neg (lit (3333#10000)); lit 0; lit 1; lit 0;
      lit (5#10);       neg (lit (3333#10000)); lit 0; lit 0; lit 1 ].

(** The variables of [initWebGPU] that the click listener and [frame] close
    over. *)
Record App : Type := {
  vertexBuffer : nat;
  pipeline : nat;
  uniformBuffer : nat;
  bindGroup : nat;
  renderPassDescriptor : GPURenderPassDescriptor A;
  rotationAngle : A;
  isRotating : bool;
}.

Definition setView (v : option nat) (app : App) : App :=
  {| vertexBuffer := vertexBuffer app; pipeline := pipeline app;
     uniformBuffer := uniformBuffer app; bindGroup := bindGroup app;
     renderPassDescriptor :=
       {| view := v;
          loadOp := loadOp (renderPassDescriptor app);
          clearValue := clearValue (renderPassDescriptor app);
          storeOp := storeOp (renderPassDescriptor app) |};
     rotationAngle := rotationAngle app; isRotating := isRotating app |}.

Definition setRotationAngle (x : A) (app : App) : App :=
  {| vertexBuffer := vertexBuffer app; pipeline := pipeline app;
     uniformBuffer := uniformBuffer app; bindGroup := bindGroup app;
     renderPassDescriptor := renderPassDescriptor app;
     rotationAngle := x; isRotating := isRotating app |}.

Definition setIsRotating (x : bool) (app : App) : App :=
  {| vertexBuffer := vertexBuffer app; pipeline := pipeline app;
     uniformBuffer := uniformBuffer app; bindGroup := bindGroup app;
     renderPassDescriptor := renderPassDescriptor app;
     rotationAngle := rotationAngle app; isRotating := x |}.

(** Toggle rotation state on canvas click *)
Definition onClick (app : App) : App :=
  setIsRotating (negb (isRotating app)) app.

(** Rendering loop *)
Definition frame (app : App) : Script A App :=
  (* Calculate the transformation matrix *)
  app <- (if isRotating app then
            let app := setRotationAngle
                         (add (rotationAngle app) (lit (1#100))) app in
            let tx := lit 0 in
            let ty := lit 0 in
            let transformationMatrix :=
              createTransformationMatrix (rotationAngle app) tx ty in
            (* Write the rotation matrix to the uniform buffer *)
            queue_writeBuffer (uniformBuffer app) 0 transformationMatrix ;;;
            ret app
          else ret app) ;;
  (* Get the current texture from the canvas *)
  currentTexture <- create getCurrentTexture ;;
  currentView <- create (createView currentTexture) ;;
  let app := setView (Some currentView) app in
  (* Create the command encoder *)
  create createCommandEncoder ;;;
  create (beginRenderPass (renderPassDescriptor app)) ;;;
  (* Issue drawing commands *)
  call (setPipeline (pipeline app)) ;;;
  call (setBindGroup 0 (bindGroup app)) ;;;
  call (setVertexBuffer 0 (vertexBuffer app)) ;;;
  passEncoder_draw 3 None ;;;
  call endPass ;;;
  (* Submit the command buffer *)
  commandBuffer <- create finish ;;
  call (submit [commandBuffer]) ;;;
  (* Request the next animation frame *)
  window_requestAnimationFrame ;;;
  ret app.

(** [initWebGPU] up to the comment [// Start rendering]: [None] stands for
    the two early [return]s. *)
Definition setup : Script A (option App) :=
  (* Get the canvas and its WebGPU context *)
  create (getElementById "gpuCanvas") ;;;
  adapter <- navigator_gpu_requestAdapter "high-performance" ;;
  if negb adapter then
    call (console_error "WebGPU adapter not available. Your hardware or browser may not support WebGPU.") ;;;
    ret None
  else
  device <- adapter_requestDevice ;;
  if negb device then
    call (console_error "Failed to create WebGPU device.") ;;;
    ret None
  else
  create (getContext "webgpu") ;;;
  (* Define the format for rendering *)
  fmt <- navigator_gpu_getPreferredCanvasFormat ;;
  call (configure fmt "opaque") ;;;
  (* Create the shader module *)
  shaderModule <- create (createShaderModule shaderCode) ;;
  (* Create the vertex buffer *)
  vertexBuffer <- device_createBuffer
    {| size := byteLength vertexData;
       usage := GPUBufferUsage_VERTEX;
       mappedAtCreation := true |} ;;
  mappedRange_set vertexBuffer vertexData ;;;
  buffer_unmap vertexBuffer ;;;
  (* Create the pipeline *)
  pipeline <- create (createRenderPipeline
    {| vertex_module := shaderModule;
       vertex_entryPoint := "vertexMain";
       vertex_buffers :=
         [ {| arrayStride := 5 * BYTES_PER_ELEMENT;
              attributes :=
                [ {| shaderLocation := 0; format := "float32x2"; offset := 0 |};
                  {| shaderLocation := 1; format := "float32x3";
                     offset := 2 * BYTES_PER_ELEMENT |} ] |} ];
       fragment_module := shaderModule;
       fragment_entryPoint := "fragmentMain";
       fragment_targets := [fmt];
       primitive_topology := "triangle-list";
       layout := "auto" |}) ;;
  (* Create the uniform buffer *)
  uniformBuffer <- device_createBuffer
    {| size := 256; (* Uniform buffers must be aligned to 256 bytes *)
       usage := N.lor GPUBufferUsage_UNIFORM GPUBufferUsage_COPY_DST;
       mappedAtCreation := false |} ;;
  (* Create a bind group to bind the uniform buffer to the shader *)
  bindGroupLayout <- create (getBindGroupLayout pipeline 0) ;;
  bindGroup <- create (createBindGroup bindGroupLayout
    [ {| binding := 0; resource_buffer := uniformBuffer |} ]) ;;
  (* Create the render pass descriptor; rotation for the triangle *)
  let app :=
    {| vertexBuffer := vertexBuffer; pipeline := pipeline;
       uniformBuffer := uniformBuffer; bindGroup := bindGroup;
       renderPassDescriptor :=
         {| view := None; (* Assigned per-frame *)
            loadOp := "clear";
            clearValue := {| r := lit 0; g := lit (2#10); b := lit (4#10);
                             a := lit 1 |};
            storeOp := "store" |};
       rotationAngle := lit 0;
       isRotating := true |} in
  (* Toggle rotation state on canvas click *)
  canvas_addEventListener "click" ;;;
  ret (Some app).

Definition initWebGPU : Script A (option App) :=
  variables <- setup ;;
  match variables with
  | Some app =>
      (* Start rendering *)
      app <- frame app ;;
      ret (Some app)
  | None => ret None
  end.

(** Initialize WebGPU: the top level of the script. *)
Definition main : Script A (option App) :=
  fun h =>
    if navigator_gpu (env h) then initWebGPU h
    else (call (console_error "WebGPU is not supported on this browser.") ;;;
          ret None) h.

(** ** Executions

    The script runs once against a fresh host; afterwards the browser
    delivers clicks on the canvas and animation frames, in any order. *)

Inductive Event : Type := Click | AnimationFrame.

Definition System : Type := (option App * Host A)%type.

Definition boot (e : Env) : System := main (fresh e).

Definition dispatch (s : System) (ev : Event) : System :=
  match s with
  | (Some app, h) =>
      match ev with
      | Click => (Some (Nat.iter (clickListeners h) onClick app), h)
      | AnimationFrame =>
          match animationFrames h with
          | O => s
          | S pending =>
              let (app', h') := frame app (setAnimationFrames pending h) in
              (Some app', h')
          end
      end
  | (None, _) => s
  end.

Definition run (e : Env) (events : list Event) : System :=
  fold_left dispatch events (boot e).

(** [n] calls of [frame] in a row. *)
Fixpoint frames (n : nat) (app : App) (h : Host A) : App * Host A :=
  match n with
  | O => (app, h)
  | S k => let (app', h') := frame app h in frames k app' h'
  end.

End Program.

Arguments App : clear implicits.
Arguments System : clear implicits.
Arguments boot : clear implicits.
Arguments run : clear implicits.

(** * The vocabulary of the properties *)

Section Vocabulary.

Context {A : Arith}.

(** The calls of a frame from [getCurrentTexture] on, when the trace holds
    [n] calls before them. *)
Definition renderCalls (app : App A) (n : nat) : list (Call A) :=
  [ getCurrentTexture;
    createView n;
    createCommandEncoder;
    beginRenderPass
      {| view := Some (S n);
         loadOp := loadOp (renderPassDescriptor app);
         clearValue := clearValue (renderPassDescriptor app);
         storeOp := storeOp (renderPassDescriptor app) |};
    setPipeline (pipeline app);
    setBindGroup 0 (bindGroup app);
    setVertexBuffer 0 (vertexBuffer app);
    draw 3 1 0 0;
    endPass;
    finish;
    submit [n + 9];
    requestAnimationFrame ].

(** The angle one rotating frame later. *)
Definition nextAngle (x : A) : A := add x (lit (1#100)).

(** The environment lets [initWebGPU] run to its end. *)
Definition supported (e : Env) : bool :=
  navigator_gpu e && adapterAvailable e && deviceAvailable e.

Definition count {X : Type} (p : X -> bool) (l : list X) : nat :=
  List.length (filter p l).

Definition isConsoleError (c : Call A) : bool :=
  match c with console_error _ => true | _ => false end.

Definition isRequestAdapter (c : Call A) : bool :=
  match c with requestAdapter _ => true | _ => false end.

Definition isRequestDevice (c : Call A) : bool :=
  match c with requestDevice => true | _ => false end.

Definition isCreateBuffer (c : Call A) : bool :=
  match c with createBuffer _ => true | _ => false end.

Definition isCreateRenderPipeline (c : Call A) : bool :=
  match c with createRenderPipeline _ => true | _ => false end.

Definition isDraw (c : Call A) : bool :=
  match c with draw _ _ _ _ => true | _ => false end.

Definition isSubmit (c : Call A) : bool :=
  match c with submit _ => true | _ => false end.

(** The call puts data into the given buffer. *)
Definition writesTo (buffer : nat) (c : Call A) : bool :=
  match c with
  | setMappedRange x _ | writeBuffer x _ _ => Nat.eqb x buffer
  | _ => false
  end.

(** The call belongs to the rendering of a frame. *)
Definition isRendering (c : Call A) : bool :=
  match c with
  | writeBuffer _ _ _ | getCurrentTexture | createView _ | createCommandEncoder
  | beginRenderPass _ | setPipeline _ | setBindGroup _ _ | setVertexBuffer _ _
  | draw _ _ _ _ | endPass | finish | submit _ | requestAnimationFrame => true
  | _ => false
  end.

(** The matrices written to the uniform buffer, oldest first. *)
Fixpoint uploads (l : list (Call A)) : list (list A) :=
  match l with
  | [] => []
  | writeBuffer _ _ data :: l' => data :: uploads l'
  | _ :: l' => uploads l'
  end.

(** ** What [setup] leaves behind *)

Definition setupCalls (fmt : string) : list (Call A) :=
  [ getElementById "gpuCanvas";
    requestAdapter "high-performance";
    requestDevice;
    getContext "webgpu";
    getPreferredCanvasFormat;
    configure fmt "opaque";
    createShaderModule shaderCode;
    createBuffer {| size := 60; usage := 32; mappedAtCreation := true |};
    setMappedRange 0 vertexData;
    unmap 0;
    createRenderPipeline
      {| vertex_module := 6;
         vertex_entryPoint := "vertexMain";
         vertex_buffers :=
           [ {| arrayStride := 20;
                attributes :=
                  [ {| shaderLocation := 0; format := "float32x2"; offset := 0 |};
                    {| shaderLocation := 1; format := "float32x3"; offset := 8 |} ]
             |} ];
         fragment_module := 6;
         fragment_entryPoint := "fragmentMain";
         fragment_targets := [fmt];
         primitive_topology := "triangle-list";
         layout := "auto" |};
    createBuffer {| size := 256; usage := 72; mappedAtCreation := false |};
    getBindGroupLayout 10 0;
    createBindGroup 12 [ {| binding := 0; resource_buffer := 1 |} ];
    addEventListener "click" ].

Definition vertexBufferObject : GPUBuffer A :=
  {| descriptor := {| size := 60; usage := 32; mappedAtCreation := true |};
     mapped := false;
     contents := vertexData |}.

Definition uniformBufferObject (data : list A) : GPUBuffer A :=
  {| descriptor := {| size := 256; usage := 72; mappedAtCreation := false |};
     mapped := false;
     contents := data |}.

Definition backgroundColor : GPUColor A :=
  {| r := lit 0; g := lit (2#10); b := lit (4#10); a := lit 1 |}.

(** The variables of [initWebGPU] when it starts rendering. *)
Definition startApp : App A :=
  {| vertexBuffer := 0; pipeline := 10; uniformBuffer := 1; bindGroup := 13;
     renderPassDescriptor :=
       {| view := None; loadOp := "clear"; clearValue := backgroundColor;
          storeOp := "store" |};
     rotationAngle := lit 0;
     isRotating := true |}.

Definition startHost (e : Env) : Host A :=
  {| env := e;
     calls := setupCalls (preferredCanvasFormat e);
     buffers := [vertexBufferObject; uniformBufferObject (repeat (lit 0) 64)];
     clickListeners := 1;
     animationFrames := 0 |}.

(** ** The states an execution goes through *)

(** The angle after [k] rotating frames. *)
Definition angleAfter (k : nat) : A := Nat.iter k nextAngle (lit 0).

(** The matrix a rotating frame writes for the angle [x]. *)
Definition transform (x : A) : list A :=
  createTransformationMatrix x (lit 0) (lit 0).

Definition clicks (events : list Event) : nat :=
  count (fun ev => match ev with Click => true | _ => false end) events.

(** What holds of the script's variables and of the host after the script
    has run on a supporting environment and the events have been
    delivered. *)
Record Running (e : Env) (events : list Event) (app : App A) (h : Host A)
  : Prop := {
  running_env : env h = e;
  running_clickListeners : clickListeners h = 1;
  running_animationFrames : animationFrames h = 1;
  running_vertexBuffer : vertexBuffer app = 0;
  running_pipeline : pipeline app = 10;
  running_uniformBuffer : uniformBuffer app = 1;
  running_bindGroup : bindGroup app = 13;
  running_loadOp : loadOp (renderPassDescriptor app) = "clear";
  running_clearValue : clearValue (renderPassDescriptor app) = backgroundColor;
  running_storeOp : storeOp (renderPassDescriptor app) = "store";
  running_isRotating : isRotating app = Nat.even (clicks events);
  running_buffers :
    buffers h =
      [ vertexBufferObject;
        uniformBufferObject (transform (rotationAngle app) ++ repeat (lit 0) 48) ];
  running_calls :
    exists rendering,
      calls h = setupCalls (preferredCanvasFormat e) ++ rendering /\
      forallb isRendering rendering = true /\
      forallb (fun c => negb (writesTo 0 c)) rendering = true;
  running_uploads :
    exists k,
      uploads (calls h) = map (fun i => transform (angleAfter i)) (seq 1 (S k)) /\
      rotationAngle app = angleAfter (S k);
}.

End Vocabulary.

(** The states in which the script calls [frame]: at the end of
    [initWebGPU], and whenever the browser runs a pending animation-frame
    callback. *)
Inductive Invokes {A : Arith} (e : Env) : App A -> Host A -> Prop :=
| invokes_start (app : App A) (h : Host A) :
    navigator_gpu e = true ->
    setup (fresh e) = (Some app, h) ->
    Invokes e app h
| invokes_animationFrame (events : list Event) (app : App A) (h : Host A)
    (pending : nat) :
    run A e events = (Some app, h) ->
    animationFrames h = S pending ->
    Invokes e app (setAnimationFrames pending h).

(** A browser with WebGPU. *)
Definition webgpuBrowser : Env :=
  {| navigator_gpu := true; adapterAvailable := true;
     deviceAvailable := true; preferredCanvasFormat := "bgra8unorm" |}.

(** The rotation angle of a system, when the script is running. *)
Definition angleOf {A : Arith} (s : System A) : option A :=
  option_map rotationAngle (fst s).

(** * The shaders

    The WGSL program of [shaderCode], as the functions it defines.  A
    [mat4x4<f32>] is read from sixteen consecutive floats, column by column;
    a product of a matrix and a vector is the sum of the columns scaled by
    the components (summed from the left). *)

Section Shader.

Context {A : Arith}.

Definition vec2 : Type := (A * A)%type.
Definition vec3 : Type := (A * A * A)%type.
Definition vec4 : Type := (A * A * A * A)%type.

(** [m * v] for [m : mat4x4<f32>] and [v : vec4<f32>] *)
Definition mulMatVec (m : list A) (v : vec4) : vec4 :=
  let '(x, y, z, w) := v in
  let row i :=
    add (add (add (mul (entry m i 0) x) (mul (entry m i 1) y))
           (mul (entry m i 2) z))
      (mul (entry m i 3) w) in
  (row 0, row 1, row 2, row 3).

Record VertexOutput : Type := {
  position : vec4;   (* Position of the vertex *)
  fragColor : vec3;  (* Color passed to the fragment shader *)
}.

Definition vertexMain (transformationMatrix : list A)
  (position : vec2) (color : vec3) : VertexOutput :=
  (* Convert position to vec3 to apply 4x4 matrix *)
  let transformedPosition :=
    mulMatVec transformationMatrix (fst position, snd position, lit 0, lit 1) in
  let '(tx, ty, _, _) := transformedPosition in
  {| position := (tx, ty, lit 0, lit 1);
     fragColor := color |}.

Definition fragmentMain (fragColor : vec3) : vec4 :=
  let '(red, green, blue) := fragColor in
  (red, green, blue, lit 1). (* Output the color with full opacity *)

End Shader.

Arguments VertexOutput : clear implicits.

(** * Further vocabulary *)

(** Cosine and sine at 0 and of a sum, in arithmetic without rounding. *)
Record ExactTrig (A : Arith) : Prop := {
  exact_cos_0 : @Math_cos A (lit 0) = lit 1;
  exact_sin_0 : @Math_sin A (lit 0) = lit 0;
  exact_cos_add : forall x y : A,
    Math_cos (add x y)
    = sub (mul (Math_cos x) (Math_cos y)) (mul (Math_sin x) (Math_sin y));
  exact_sin_add : forall x y : A,
    Math_sin (add x y)
    = add (mul (Math_sin x) (Math_cos y)) (mul (Math_cos x) (Math_sin y));
}.

Section History.

Context {A : Arith}.

Definition isAnimationFrame (ev : Event) : bool :=
  match ev with AnimationFrame => true | Click => false end.

(** What a history of events amounts to: whether rotation is active after
    it, and how many of its animation frames came while rotation was
    active. *)
Definition tally (events : list Event) : bool * nat :=
  fold_left
    (fun (s : bool * nat) (ev : Event) =>
       let (rotating, n) := s in
       match ev with
       | Click => (negb rotating, n)
       | AnimationFrame => (rotating, if rotating then S n else n)
       end)
    events (true, 0).

Definition isConfigure (c : Call A) : bool :=
  match c with configure _ _ => true | _ => false end.

(** The shape of the calls that move data or draw, as the script makes
    them: an upload is 16 floats to the start of buffer 1, a draw is of 3
    vertices and 1 instance from vertex 0. *)
Definition wellFormed (c : Call A) : bool :=
  match c with
  | writeBuffer buffer bufferOffset data =>
      Nat.eqb buffer 1 && N.eqb bufferOffset 0 &&
      Nat.eqb (List.length data) 16
  | draw vertexCount instanceCount firstVertex firstInstance =>
      N.eqb vertexCount 3 && N.eqb instanceCount 1 &&
      N.eqb firstVertex 0 && N.eqb firstInstance 0
  | _ => true
  end.

(** The vertex counts of the draw calls of a trace. *)
Fixpoint draws (l : list (Call A)) : list N :=
  match l with
  | [] => []
  | draw vertexCount _ _ _ :: l' => vertexCount :: draws l'
  | _ :: l' => draws l'
  end.

(** The byte size of a vertex format. *)
Definition vertexFormatSize (fmt : string) : option N :=
  if String.eqb fmt "float32x2" then Some 8%N
  else if String.eqb fmt "float32x3" then Some 12%N
  else None.

(** The floats that the attribute [attr] of vertex [i] is read from, in a
    buffer with the given contents and layout; [None] when the format is
    unknown or the read would leave the buffer. *)
Definition fetchAttribute (data : list A) (l : GPUVertexBufferLayout)
  (attr : GPUVertexAttribute) (i : nat) : option (list A) :=
  match vertexFormatSize (format attr) with
  | Some n =>
      let first := (N.of_nat i * arrayStride l + offset attr)%N in
      if (first + n <=? byteLength data)%N
      then Some (firstn (N.to_nat (n / BYTES_PER_ELEMENT))
                   (skipn (N.to_nat (first / BYTES_PER_ELEMENT)) data))
      else None
  | None => None
  end.

(** All attributes of vertex [i], in the order of the layout. *)
Definition fetchVertex (data : list A) (l : GPUVertexBufferLayout) (i : nat)
  : list (option (list A)) :=
  map (fun attr => fetchAttribute data l attr i) (attributes l).

(** What a vertex is made of: the floats of its attributes, one after the
    other ([None] when one of them cannot be read). *)
Definition vertexFloats (v : list (option (list A))) : option (list A) :=
  fold_right
    (fun o acc =>
       match o, acc with
       | Some l, Some l' => Some (l ++ l')
       | _, _ => None
       end)
    (Some []) v.

(** The descriptors of the pipelines created, and the configurations given
    to the canvas context, oldest first. *)
Fixpoint pipelines (l : list (Call A)) : list GPURenderPipelineDescriptor :=
  match l with
  | [] => []
  | createRenderPipeline d :: l' => d :: pipelines l'
  | _ :: l' => pipelines l'
  end.

Fixpoint configurations (l : list (Call A)) : list (string * string) :=
  match l with
  | [] => []
  | configure fmt alphaMode :: l' => (fmt, alphaMode) :: configurations l'
  | _ :: l' => configurations l'
  end.

(** ** Objects and the calls that create them *)

Definition isGetCurrentTexture (c : Call A) : bool :=
  match c with getCurrentTexture => true | _ => false end.

Definition isCreateView (c : Call A) : bool :=
  match c with createView _ => true | _ => false end.

Definition isCreateShaderModule (c : Call A) : bool :=
  match c with createShaderModule _ => true | _ => false end.

Definition isGetBindGroupLayout (c : Call A) : bool :=
  match c with getBindGroupLayout _ _ => true | _ => false end.

Definition isCreateBindGroup (c : Call A) : bool :=
  match c with createBindGroup _ _ => true | _ => false end.

Definition isFinish (c : Call A) : bool :=
  match c with finish => true | _ => false end.

Definition isRequestAnimationFrame (c : Call A) : bool :=
  match c with requestAnimationFrame => true | _ => false end.

(** The object [id] exists in the trace [l] and was created by a call of
    the kind [p]. *)
Definition creates (p : Call A -> bool) (l : list (Call A)) (id : nat) : bool :=
  match nth_error l id with
  | Some c => p c
  | None => false
  end.

(** Every object the call [c] names was created, by a call of the right
    kind, in the trace [before] it; a render pass has a view. *)
Definition resolved (before : list (Call A)) (c : Call A) : bool :=
  let isBuffer id := Nat.ltb id (count isCreateBuffer before) in
  match c with
  | setMappedRange buffer _ | unmap buffer | writeBuffer buffer _ _
  | setVertexBuffer _ buffer => isBuffer buffer
  | createRenderPipeline d =>
      creates isCreateShaderModule before (vertex_module d) &&
      creates isCreateShaderModule before (fragment_module d)
  | getBindGroupLayout pipeline _ =>
      creates isCreateRenderPipeline before pipeline
  | createBindGroup bindGroupLayout entries =>
      creates isGetBindGroupLayout before bindGroupLayout &&
      forallb (fun en => isBuffer (resource_buffer en)) entries
  | createView texture => creates isGetCurrentTexture before texture
  | beginRenderPass d =>
      match view d with
      | Some v => creates isCreateView before v
      | None => false
      end
  | setPipeline pipeline => creates isCreateRenderPipeline before pipeline
  | setBindGroup _ bindGroup => creates isCreateBindGroup before bindGroup
  | submit commandBuffers => forallb (creates isFinish before) commandBuffers
  | _ => true
  end.

Fixpoint allResolved (before l : list (Call A)) : bool :=
  match l with
  | [] => true
  | c :: l' => resolved before c && allResolved (before ++ [c]) l'
  end.

End History.

(** The layout of the vertex buffer that the pipeline is created with. *)
Definition vertexBufferLayout : GPUVertexBufferLayout :=
  {| arrayStride := 5 * BYTES_PER_ELEMENT;
     attributes :=
       [ {| shaderLocation := 0; format := "float32x2"; offset := 0 |};
         {| shaderLocation := 1; format := "float32x3";
            offset := 2 * BYTES_PER_ELEMENT |} ] |}.

(** ** What the script needs of [Math.sin]

    For the matrix of an angle that the script reaches to differ from the
    matrix of the angle 0, the sine must tell the two angles apart:
    [Math.sin] is 0 at 0 (ECMAScript fixes this value), and at an angle
    from 2^-7 = 0.0078125 to 2^47 = 140737488355328 its value, once stored
    in a [Float32Array], is not zero. *)
Definition sineVanishesAtZeroOnly (sin : float -> float) : Prop :=
  sin 0%float = 0%float /\
  forall x : float,
    (0.0078125 <=? x)%float = true ->
    (x <=? 140737488355328)%float = true ->
    (Binary64.Math_fround (sin x) =? 0)%float = false.

(** A binary64 number that is finite and at least 2^-7 = 0.0078125. *)
Definition at_least_2pm7 (x : float) : Prop :=
  exists m e,
    Prim2SF x = S754_finite false m e /\ (-6 <= Zpos (digits2_pos m) + e)%Z.

(** The identity matrix. *)
Definition identityMatrix {A : Arith} : list A :=
  [ lit 1; lit 0; lit 0; lit 0;
    lit 0; lit 1; lit 0; lit 0;
    lit 0; lit 0; lit 1; lit 0;
    lit 0; lit 0; lit 0; lit 1 ].

(** A sine and a cosine to run the script with: at the angles 0, 0.01 and
    0.02 the sine and cosine of the angle, rounded to binary64; at any other
    angle 1, respectively 0. *)
Definition sampled_sin (x : float) : float :=
  if (x =? 0)%float then x
  else if (x =? 0.01)%float then 0.009999833334166664%float
  else if (x =? 0.02)%float then 0.01999866669333308%float
  else 1%float.

Definition sampled_cos (x : float) : float :=
  if (x =? 0)%float then 1%float
  else if (x =? 0.01)%float then 0.9999500004166653%float
  else if (x =? 0.02)%float then 0.9998000066665778%float
  else 0%float.

(** * Proofs *)

(** Refuting an equation between two binary64 constants: their
    decompositions into sign, mantissa and exponent differ. *)
Ltac float_discriminate H :=
  apply (f_equal Prim2SF) in H; vm_compute in H; discriminate H.

(** ** The two arithmetics *)

(** The literals of [main.js] denote the binary64 numbers they denote in
    JavaScript. *)
Lemma literals_of_main_js :
  Binary64.literal 0 = 0%float /\
  Binary64.literal 1 = 1%float /\
  Binary64.literal (1#100) = 0.01%float /\
  Binary64.literal (2#10) = 0.2%float /\
  Binary64.literal (4#10) = 0.4%float /\
  Binary64.literal (5#10) = 0.5%float /\
  Binary64.literal (3333#10000) = 0.3333%float /\
  Binary64.literal (6667#10000) = 0.6667%float.
Proof. repeat split. Qed.

Lemma Real_lit_0 : Q2R 0 = 0%R.
Proof. unfold Q2R; simpl; lra. Qed.

Lemma Real_lit_1 : Q2R 1 = 1%R.
Proof. unfold Q2R; simpl; lra. Qed.

Lemma Real_exact : ExactArith Exact.Real.
Proof.
  constructor;
    cbn [Exact.Real num lit ofNat add sub mul neg Math_cos Math_sin fround].
  - rewrite Real_lit_0, Real_lit_1. exact RTheory.
  - reflexivity.
  - now rewrite Real_lit_0.
  - intros n. now rewrite S_INR, Real_lit_1.
  - intros x. rewrite Real_lit_1, Rplus_comm. exact (sin2_cos2 x).
Qed.

(** ** One call of [frame] *)

Section Frame.

Context {A : Arith}.

Lemma Host_ext (h1 h2 : Host A) :
  env h1 = env h2 -> calls h1 = calls h2 -> buffers h1 = buffers h2 ->
  clickListeners h1 = clickListeners h2 ->
  animationFrames h1 = animationFrames h2 -> h1 = h2.
Proof. destruct h1, h2; cbn; intros; subst; reflexivity. Qed.

Lemma frame_paused (app : App A) (h : Host A) :
  isRotating app = false ->
  frame app h =
    (setView (Some (S (List.length (calls h)))) app,
     {| env := env h;
        calls := calls h ++ renderCalls app (List.length (calls h));
        buffers := buffers h;
        clickListeners := clickListeners h;
        animationFrames := S (animationFrames h) |}).
Proof.
  intros Hp. unfold frame, bind. rewrite Hp.
  unfold create, passEncoder_draw, window_requestAnimationFrame, call, ret.
  f_equal.
  - cbn [calls record]. rewrite length_app. cbn [List.length].
    rewrite Nat.add_1_r. reflexivity.
  - apply Host_ext; cbn [env calls buffers clickListeners animationFrames
                         record setAnimationFrames]; try reflexivity.
    unfold renderCalls. cbn [renderPassDescriptor setView pipeline bindGroup
                             vertexBuffer view loadOp clearValue storeOp].
    repeat rewrite <- app_assoc. cbn [List.app].
    repeat (rewrite length_app; cbn [List.length]).
    repeat (f_equal; try lia).
Qed.

Lemma frame_rotating (app : App A) (h : Host A) :
  isRotating app = true ->
  let matrix := createTransformationMatrix
                  (nextAngle (rotationAngle app)) (lit 0) (lit 0) in
  frame app h =
    (setView (Some (S (S (List.length (calls h)))))
       (setRotationAngle (nextAngle (rotationAngle app)) app),
     {| env := env h;
        calls := calls h
                 ++ writeBuffer (uniformBuffer app) 0 matrix
                 :: renderCalls app (S (List.length (calls h)));
        buffers := updateBuffer (store 0 matrix) (uniformBuffer app) (buffers h);
        clickListeners := clickListeners h;
        animationFrames := S (animationFrames h) |}).
Proof.
  intros Hr matrix. unfold frame, bind. rewrite Hr.
  unfold create, passEncoder_draw, window_requestAnimationFrame,
    queue_writeBuffer, call, ret.
  cbn [rotationAngle setRotationAngle uniformBuffer].
  fold (nextAngle (rotationAngle app)). fold matrix.
  f_equal.
  - cbn [calls record setBuffers]. repeat rewrite length_app. cbn [List.length].
    repeat rewrite Nat.add_1_r. reflexivity.
  - apply Host_ext; cbn [env calls buffers clickListeners animationFrames
                         record setAnimationFrames setBuffers]; try reflexivity.
    unfold renderCalls. cbn [renderPassDescriptor setView setRotationAngle
                             pipeline bindGroup vertexBuffer view loadOp
                             clearValue storeOp].
    repeat rewrite <- app_assoc. cbn [List.app].
    repeat (rewrite length_app; cbn [List.length]).
    repeat (f_equal; try lia).
Qed.

End Frame.

(** ** The transformation matrix *)

(** In arithmetic without rounding the operations obey the ring laws. *)
Section ExactFacts.

Context {A : Arith} (HA : ExactArith A).

Add Ring exact_arith_ring : (exact_ring A HA).

Lemma exact_Float32Array (l : list A) : Float32Array l = l.
Proof.
  unfold Float32Array. rewrite <- (map_id l) at 2.
  apply map_ext. intros x. apply (exact_fround A HA).
Qed.

Lemma exact_det2 (theta : A) :
  det2 (createTransformationMatrix theta (lit 0) (lit 0)) = lit 1.
Proof.
  unfold createTransformationMatrix. rewrite exact_Float32Array.
  unfold det2, entry. cbn [nth Nat.add Nat.mul].
  rewrite <- (exact_pythagoras A HA theta). ring.
Qed.

Lemma exact_orthonormal2 (theta : A) :
  orthonormal2 (createTransformationMatrix theta (lit 0) (lit 0)).
Proof.
  unfold createTransformationMatrix. rewrite exact_Float32Array.
  unfold orthonormal2, dot2, entry. cbn [nth Nat.add Nat.mul].
  repeat split; try ring; rewrite <- (exact_pythagoras A HA theta); ring.
Qed.

End ExactFacts.

(** C1 (as amended).  For every angle and translation,
    [createTransformationMatrix] returns sixteen numbers, which read as a
    column-major 4x4 matrix have the columns (cos, -sin, 0, 0),
    (sin, cos, 0, 0), (0, 0, 1, 0) and (tx, ty, 0, 1), each of cos, -sin,
    sin, tx and ty rounded to single precision by the [Float32Array] that
    holds the result; the last column is (tx, ty, 0, 1) itself when tx and
    ty are single precision numbers.  The result is a function of the three
    arguments (and of [Math.cos] and [Math.sin]) alone. *)
Theorem createTransformationMatrix_columns (A : Arith) (theta tx ty : A) :
  let m := createTransformationMatrix theta tx ty in
  List.length m = 16 /\
  column m 0 = [fround (Math_cos theta); fround (neg (Math_sin theta));
                lit 0; lit 0] /\
  column m 1 = [fround (Math_sin theta); fround (Math_cos theta);
                lit 0; lit 0] /\
  column m 2 = [lit 0; lit 0; lit 1; lit 0] /\
  column m 3 = [fround tx; fround ty; lit 0; lit 1] /\
  (fround tx = tx -> fround ty = ty -> column m 3 = [tx; ty; lit 0; lit 1]).
Proof.
  unfold createTransformationMatrix, Float32Array, column, entry.
  cbn [map List.length nth Nat.add Nat.mul].
  rewrite !fround_0, !fround_1. repeat split.
  intros -> ->. reflexivity.
Qed.

(** A translation by single precision numbers, on binary64. *)
Lemma createTransformationMatrix_columns_representable :
  Binary64.Math_fround 0.5 = 0.5%float /\
  Binary64.Math_fround (-0.25) = (-0.25)%float /\
  forall (cos sin : float -> float) (theta : float),
    column (createTransformationMatrix (A := Binary64.JS cos sin)
              theta 0.5%float (-0.25)%float) 3
    = [0.5; -0.25; 0; 1]%float.
Proof.
  split; [reflexivity | split; [reflexivity|]]. intros cos sin theta.
  apply (createTransformationMatrix_columns (Binary64.JS cos sin) theta
           0.5%float (-0.25)%float); reflexivity.
Defined.

(** C1, as stated, fails: whatever [Math.cos] and [Math.sin] compute, the
    last column of [createTransformationMatrix(0, 0.1, 0)] is not
    (0.1, 0, 0, 1); its first entry is 0.10000000149011612, the single
    precision number nearest to 0.1. *)
Lemma createTransformationMatrix_translation_rounded :
  ~ exists cos sin : float -> float,
      column (createTransformationMatrix (A := Binary64.JS cos sin)
                0%float 0.1%float 0%float) 3
      = [0.1; 0; 0; 1]%float.
Proof.
  intros (cos & sin & H).
  unfold createTransformationMatrix, Float32Array, column, entry in H.
  cbn [map nth Nat.add Nat.mul] in H.
  apply (f_equal (fun l => nth 0 l 0%float)) in H.
  cbn [nth fround Binary64.JS] in H.
  float_discriminate H.
Qed.

Lemma createTransformationMatrix_translation_value (cos sin : float -> float) :
  column (createTransformationMatrix (A := Binary64.JS cos sin)
            0%float 0.1%float 0%float) 3
  = [0.10000000149011612; 0; 0; 1]%float.
Proof. reflexivity. Qed.

(** C6 (as amended).  For every angle the upper-left 2x2 block of
    [createTransformationMatrix(theta, 0, 0)], read column by column as the
    array stores it, is ((cos, -sin), (sin, cos)) with each entry rounded to
    single precision.  In arithmetic without rounding the entries are cos,
    -sin, sin and cos themselves, the block is orthonormal and its
    determinant is 1. *)
Theorem createTransformationMatrix_block (A : Arith) (theta : A) :
  let m := createTransformationMatrix theta (lit 0) (lit 0) in
  block2 m = [ [fround (Math_cos theta); fround (neg (Math_sin theta))];
               [fround (Math_sin theta); fround (Math_cos theta)] ] /\
  (ExactArith A ->
   block2 m = [ [Math_cos theta; neg (Math_sin theta)];
                [Math_sin theta; Math_cos theta] ] /\
   orthonormal2 m /\ det2 m = lit 1).
Proof.
  split.
  - reflexivity.
  - intros HA. split; [| split].
    + unfold createTransformationMatrix. rewrite (exact_Float32Array HA).
      reflexivity.
    + apply (exact_orthonormal2 HA).
    + apply (exact_det2 HA).
Qed.

(** The block of a rotation by one radian on the real numbers. *)
Lemma createTransformationMatrix_block_real :
  let m := createTransformationMatrix (A := Exact.Real) 1%R 0%R 0%R in
  ExactArith Exact.Real /\
  block2 m = [ [cos 1; (- sin 1)%R]; [sin 1; cos 1] ] /\
  orthonormal2 m /\ det2 m = 1%R.
Proof.
  split; [exact Real_exact |].
  pose proof (createTransformationMatrix_block Exact.Real 1%R) as [_ H].
  cbn [lit Exact.Real] in H. rewrite Real_lit_0, ?Real_lit_1 in H.
  specialize (H Real_exact).
  cbn [lit Exact.Real] in H. rewrite ?Real_lit_1 in H.
  exact H.
Defined.

(** C6, as stated, fails on the numbers the script computes with: when
    [Math.cos(1)] and [Math.sin(1)] are the binary64 numbers nearest to the
    cosine and sine of 1, the determinant of the block, evaluated in
    binary64, is 0.99999992125327708 and not 1.  (The two products are
    exact in binary64, the entries having 24 bits each, so the determinant
    of the stored block is not 1 on the real numbers either.) *)
Lemma createTransformationMatrix_block_not_unit :
  ~ exists cos sin : float -> float,
      cos 1%float = 0.5403023058681398%float /\
      sin 1%float = 0.8414709848078965%float /\
      det2 (createTransformationMatrix (A := Binary64.JS cos sin)
              1%float 0%float 0%float) = 1%float.
Proof.
  intros (cos & sin & Hc & Hs & H).
  unfold createTransformationMatrix, Float32Array, det2, entry in H.
  cbn [map nth Nat.add Nat.mul] in H.
  cbn [fround mul sub neg Math_cos Math_sin Binary64.JS] in H.
  rewrite Hc, Hs in H.
  float_discriminate H.
Qed.

(** Read by rows, the block is ((cos, sin), (-sin, cos)): applied to a
    column vector, as the vertex shader applies it, the matrix turns
    positions by the angle in the clockwise direction. *)
Lemma createTransformationMatrix_rows (A : Arith) (theta : A) :
  let m := createTransformationMatrix theta (lit 0) (lit 0) in
  [ [entry m 0 0; entry m 0 1]; [entry m 1 0; entry m 1 1] ]
  = [ [fround (Math_cos theta); fround (Math_sin theta)];
      [fround (neg (Math_sin theta)); fround (Math_cos theta)] ].
Proof. reflexivity. Qed.

(** ** Executions of the script *)

Section Executions.

Context {A : Arith}.

Lemma count_app {X : Type} (p : X -> bool) (l l' : list X) :
  count p (l ++ l') = count p l + count p l'.
Proof. unfold count. now rewrite filter_app, length_app. Qed.

Lemma uploads_app (l l' : list (Call A)) :
  uploads (l ++ l') = uploads l ++ uploads l'.
Proof.
  induction l as [|c l IH]; [reflexivity|].
  destruct c; cbn [uploads List.app]; rewrite IH; reflexivity.
Qed.

Lemma setup_supported (e : Env) :
  adapterAvailable e = true -> deviceAvailable e = true ->
  setup (A := A) (fresh e) = (Some startApp, startHost e).
Proof.
  destruct e as [gpu ad dev fmt]. cbn [adapterAvailable deviceAvailable].
  intros -> ->. reflexivity.
Qed.

Lemma setup_no_adapter (e : Env) :
  adapterAvailable e = false ->
  setup (A := A) (fresh e) =
    (None,
     {| env := e;
        calls := [ getElementById "gpuCanvas";
                   requestAdapter "high-performance";
                   console_error "WebGPU adapter not available. Your hardware or browser may not support WebGPU." ];
        buffers := []; clickListeners := 0; animationFrames := 0 |}).
Proof.
  destruct e as [gpu ad dev fmt]. cbn [adapterAvailable].
  intros ->. reflexivity.
Qed.

Lemma setup_no_device (e : Env) :
  adapterAvailable e = true -> deviceAvailable e = false ->
  setup (A := A) (fresh e) =
    (None,
     {| env := e;
        calls := [ getElementById "gpuCanvas";
                   requestAdapter "high-performance";
                   requestDevice;
                   console_error "Failed to create WebGPU device." ];
        buffers := []; clickListeners := 0; animationFrames := 0 |}).
Proof.
  destruct e as [gpu ad dev fmt]. cbn [adapterAvailable deviceAvailable].
  intros -> ->. reflexivity.
Qed.

Lemma supported_inv (e : Env) :
  supported e = true ->
  navigator_gpu e = true /\ adapterAvailable e = true /\
  deviceAvailable e = true.
Proof.
  unfold supported. intros H.
  apply andb_prop in H as [H H3]. apply andb_prop in H as [H1 H2]. auto.
Qed.

Lemma boot_supported (e : Env) :
  supported e = true ->
  boot A e = (let (app, h) := frame startApp (startHost e) in (Some app, h)).
Proof.
  intros H. apply supported_inv in H as (H1 & H2 & H3).
  unfold boot, main, initWebGPU, bind. cbn [env fresh]. rewrite H1.
  rewrite (setup_supported e H2 H3).
  destruct (frame startApp (startHost e)). reflexivity.
Qed.

Lemma run_snoc (e : Env) (events : list Event) (ev : Event) :
  run A e (events ++ [ev]) = dispatch (run A e events) ev.
Proof. unfold run. now rewrite fold_left_app. Qed.

Lemma clicks_snoc_Click (events : list Event) :
  clicks (events ++ [Click]) = S (clicks events).
Proof. unfold clicks. rewrite count_app. cbn. lia. Qed.

Lemma clicks_snoc_AnimationFrame (events : list Event) :
  clicks (events ++ [AnimationFrame]) = clicks events.
Proof. unfold clicks. rewrite count_app. cbn. lia. Qed.

Lemma Running_boot (e : Env) :
  supported e = true ->
  exists app h, boot A e = (Some app, h) /\ Running e [] app h.
Proof.
  intros H. rewrite (boot_supported e H).
  rewrite (frame_rotating startApp (startHost e) eq_refl).
  eexists _, _. split; [reflexivity|].
  constructor; try reflexivity.
  - eexists. split; [reflexivity|]. split; reflexivity.
  - exists 0. split; reflexivity.
Qed.

Lemma Running_Click (e : Env) (events : list Event) (app : App A) (h : Host A) :
  Running e events app h -> Running e (events ++ [Click]) (onClick app) h.
Proof.
  intros [].
  constructor; cbn [onClick setIsRotating vertexBuffer pipeline uniformBuffer
                    bindGroup renderPassDescriptor rotationAngle isRotating];
    try assumption.
  rewrite clicks_snoc_Click, Nat.even_succ, <- Nat.negb_even. congruence.
Qed.

Lemma Running_AnimationFrame
  (e : Env) (events : list Event) (app : App A) (h : Host A) :
  Running e events app h ->
  exists app' h',
    frame app (setAnimationFrames 0 h) = (app', h') /\
    Running e (events ++ [AnimationFrame]) app' h'.
Proof.
  intros [He Hl Hf Hvb Hp Hub Hbg Hlo Hcv Hso Hr Hb (rendering & Hc & Hrd & Hw)
          (k & Hu & Ha)].
  destruct (isRotating app) eqn:Hrot.
  - rewrite (frame_rotating _ _ Hrot). eexists _, _. split; [reflexivity|].
    cbn [calls setAnimationFrames buffers env clickListeners animationFrames].
    constructor;
      cbn [env calls buffers clickListeners animationFrames setView
           setRotationAngle vertexBuffer pipeline uniformBuffer bindGroup
           renderPassDescriptor rotationAngle isRotating loadOp clearValue
           storeOp]; try assumption; try reflexivity.
    + now rewrite clicks_snoc_AnimationFrame, <- Hr.
    + rewrite Hb, Hub. reflexivity.
    + eexists. rewrite Hc, <- app_assoc. split; [reflexivity|].
      rewrite !forallb_app, Hrd, Hw, Hub. split; reflexivity.
    + exists (S k). rewrite uploads_app, Hu, Ha.
      rewrite (seq_S (S k) 1), map_app. split; reflexivity.
  - rewrite (frame_paused _ _ Hrot). eexists _, _. split; [reflexivity|].
    cbn [calls setAnimationFrames buffers env clickListeners animationFrames].
    constructor;
      cbn [env calls buffers clickListeners animationFrames setView
           vertexBuffer pipeline uniformBuffer bindGroup
           renderPassDescriptor rotationAngle isRotating loadOp clearValue
           storeOp]; try assumption; try reflexivity.
    + now rewrite clicks_snoc_AnimationFrame, <- Hr.
    + eexists. rewrite Hc, <- app_assoc. split; [reflexivity|].
      rewrite !forallb_app, Hrd, Hw. split; reflexivity.
    + exists k. rewrite uploads_app, Hu, Ha, app_nil_r. split; reflexivity.
Qed.

(** Every execution on a supporting environment keeps the script running. *)
Lemma run_Running (e : Env) (events : list Event) :
  supported e = true ->
  exists app h, run A e events = (Some app, h) /\ Running e events app h.
Proof.
  intros H. induction events as [|ev events IH] using rev_ind.
  - apply (Running_boot e H).
  - destruct IH as (app & h & Hrun & HR). rewrite run_snoc, Hrun.
    destruct ev; cbn [dispatch].
    + rewrite (running_clickListeners _ _ _ _ HR). cbn [Nat.iter nat_rect].
      eexists _, _. split; [reflexivity|]. now apply Running_Click.
    + rewrite (running_animationFrames _ _ _ _ HR).
      destruct (Running_AnimationFrame _ _ _ _ HR) as (app' & h' & -> & HR').
      eauto.
Qed.

(** On any other environment the script stops before it has registered
    anything, and no event has an effect. *)
Lemma run_unsupported (e : Env) (events : list Event) :
  supported e = false -> run A e events = boot A e /\ fst (boot A e) = None.
Proof.
  intros H.
  assert (Hb : fst (boot A e) = None).
  { unfold boot, main, initWebGPU, bind. cbn [env fresh].
    destruct (navigator_gpu e) eqn:H1; [| reflexivity].
    destruct (adapterAvailable e) eqn:H2.
    - destruct (deviceAvailable e) eqn:H3.
      + unfold supported in H. rewrite H1, H2, H3 in H. discriminate.
      + now rewrite (setup_no_device e H2 H3).
    - now rewrite (setup_no_adapter e H2). }
  split; [| assumption].
  unfold run. induction events as [|ev events IH] using rev_ind.
  - reflexivity.
  - rewrite fold_left_app, IH. cbn [fold_left].
    destruct (boot A e) as [[app|] h]; [discriminate | reflexivity].
Qed.

End Executions.

(** ** Consecutive frames *)

Section Frames.

Context {A : Arith}.

Lemma uploads_renderCalls (app : App A) (n : nat) :
  uploads (renderCalls app n) = [].
Proof. reflexivity. Qed.

Lemma frames_rotating (n : nat) : forall (app : App A) (h : Host A),
  isRotating app = true ->
  rotationAngle (fst (frames n app h)) = Nat.iter n nextAngle (rotationAngle app)
  /\ isRotating (fst (frames n app h)) = true.
Proof.
  induction n as [|n IH]; intros app h Hr.
  - split; [reflexivity | exact Hr].
  - cbn [frames]. rewrite (frame_rotating app h Hr).
    rewrite Nat.iter_succ_r. apply IH. exact Hr.
Qed.

Lemma frames_paused (n : nat) : forall (app : App A) (h : Host A),
  isRotating app = false ->
  rotationAngle (fst (frames n app h)) = rotationAngle app /\
  isRotating (fst (frames n app h)) = false /\
  buffers (snd (frames n app h)) = buffers h /\
  uploads (calls (snd (frames n app h))) = uploads (calls h).
Proof.
  induction n as [|n IH]; intros app h Hp.
  - repeat split; try reflexivity. exact Hp.
  - cbn [frames]. rewrite (frame_paused app h Hp).
    match goal with |- context [frames n ?app' ?h'] =>
      destruct (IH app' h' Hp) as (Ha & Hr & Hb & Hu) end.
    rewrite Ha, Hr, Hb, Hu. cbn [calls buffers rotationAngle setView].
    rewrite uploads_app, uploads_renderCalls, app_nil_r. auto.
Qed.

Lemma onClick_iter (n : nat) (app : App A) :
  isRotating (Nat.iter n onClick app)
  = if Nat.even n then isRotating app else negb (isRotating app).
Proof.
  induction n as [|n IH]; [reflexivity|].
  cbn [Nat.iter nat_rect]. unfold onClick at 1. cbn [isRotating setIsRotating].
  fold (Nat.iter n onClick app). rewrite IH, Nat.even_succ, <- Nat.negb_even.
  destruct (Nat.even n); cbn; [reflexivity | apply negb_involutive].
Qed.

Lemma frame_isRotating (app : App A) (h : Host A) :
  isRotating (fst (frame app h)) = isRotating app.
Proof.
  destruct (isRotating app) eqn:Hr.
  - now rewrite (frame_rotating app h Hr).
  - now rewrite (frame_paused app h Hr).
Qed.

End Frames.

(** ** Binary64: adding the step to a number that is not negative

    [rotationAngle += 0.01] on binary64, followed through the rounding
    algorithm of the addition: the sum of a number that is not negative and
    the step is above zero, and it is at most 2^47 when the number was. *)

Module Rounding.

Local Open Scope Z_scope.

(** The number of binary digits of a mantissa. *)
Lemma digits2_log2 (m : positive) :
  Zpos (digits2_pos m) = Z.log2 (Zpos m) + 1.
Proof.
  assert (Hsize : forall p, digits2_pos p = Pos.size p)
    by (intros p; induction p; cbn; congruence).
  destruct m as [p|p|]; cbn [digits2_pos Z.log2]; try reflexivity;
    rewrite Pos2Z.inj_succ, Hsize; lia.
Qed.

Lemma digits2_shl (m d : positive) :
  Zpos (digits2_pos (Pos.iter xO m d)) = Zpos (digits2_pos m) + Zpos d.
Proof.
  induction d as [|d IH] using Pos.peano_ind.
  - cbn. lia.
  - rewrite Pos.iter_succ. cbn [digits2_pos]. lia.
Qed.

(** Shifting a mantissa right. *)
Lemma shr_1_m (mrs : shr_record) :
  0 <= shr_m mrs -> shr_m (shr_1 mrs) = Z.div2 (shr_m mrs).
Proof.
  destruct mrs as [m r s]. cbn [shr_m]. intros Hm.
  destruct m as [|[p|p|]|p]; cbn; try reflexivity; lia.
Qed.

Lemma iter_shr_1_m (p : positive) : forall mrs : shr_record,
  0 <= shr_m mrs ->
  shr_m (iter_pos shr_1 p mrs) = Z.shiftr (shr_m mrs) (Zpos p).
Proof.
  assert (Hnn : forall x n, 0 <= x -> 0 <= Z.shiftr x n)
    by (intros; now apply Z.shiftr_nonneg).
  induction p as [p IH|p IH|]; intros mrs Hm; cbn [iter_pos].
  - rewrite IH, IH, shr_1_m, Z.div2_spec, !Z.shiftr_shiftr by
      (try lia; rewrite ?IH, ?shr_1_m, ?Z.div2_spec; auto;
       rewrite ?shr_1_m, ?Z.div2_spec; auto).
    f_equal. lia.
  - rewrite IH, IH, !Z.shiftr_shiftr by (try lia; rewrite ?IH; auto).
    f_equal. lia.
  - now rewrite shr_1_m, Z.div2_spec.
Qed.

Lemma shr_m_of_loc (m : Z) (l : location) : shr_m (shr_record_of_loc m l) = m.
Proof. destruct l as [|[]]; reflexivity. Qed.

(** A positive mantissa of a number that is not tiny stays positive when it
    is cut to 53 digits, and the magnitude is kept. *)
Lemma shr_fexp_pos (m : positive) (e : Z) (l : location) :
  -1021 <= Zpos (digits2_pos m) + e ->
  exists mrs e',
    shr_fexp 53 1024 (Zpos m) e l = (mrs, e') /\
    0 < shr_m mrs /\
    Z.log2 (shr_m mrs) + e' = Z.log2 (Zpos m) + e.
Proof.
  intros Hd. unfold shr_fexp, shr. cbn [Zdigits2].
  rewrite digits2_log2 in *.
  assert (Hf : fexp 53 1024 (Z.log2 (Zpos m) + 1 + e) - e = Z.log2 (Zpos m) - 52)
    by (unfold fexp, SpecFloat.emin; lia).
  rewrite Hf.
  destruct (Z.log2 (Zpos m) - 52) as [|p|p] eqn:Hn.
  - eexists _, _; split; [reflexivity|]. rewrite shr_m_of_loc. lia.
  - eexists _, _; split; [reflexivity|].
    rewrite iter_shr_1_m by (rewrite shr_m_of_loc; lia).
    rewrite shr_m_of_loc.
    assert (Hl : Z.log2 (Z.shiftr (Zpos m) (Zpos p)) = 52)
      by (rewrite Z.log2_shiftr by lia; lia).
    split; [| lia].
    destruct (Z.shiftr (Zpos m) (Zpos p)) eqn:Hs; cbn in Hl; lia.
  - eexists _, _; split; [reflexivity|]. rewrite shr_m_of_loc. lia.
Qed.

Lemma round_nearest_even_bounds (m : Z) (l : location) :
  m <= round_nearest_even m l <= m + 1.
Proof.
  destruct l as [|[]]; cbn [round_nearest_even]; try lia.
  destruct (Z.even m); lia.
Qed.

(** Rounding a positive number that is not tiny gives a positive number or
    +infinity. *)
Lemma binary_round_aux_pos (m : positive) (e : Z) :
  -1021 <= Zpos (digits2_pos m) + e ->
  binary_round_aux 53 1024 false (Zpos m) e loc_Exact = S754_infinity false \/
  exists m' e',
    binary_round_aux 53 1024 false (Zpos m) e loc_Exact
    = S754_finite false m' e'.
Proof.
  intros Hd. unfold binary_round_aux.
  destruct (shr_fexp_pos m e loc_Exact Hd) as (mrs & e' & -> & Hpos & Hlog).
  pose proof (round_nearest_even_bounds (shr_m mrs) (loc_of_shr_record mrs))
    as Hr.
  destruct (round_nearest_even (shr_m mrs) (loc_of_shr_record mrs))
    as [|m2|m2] eqn:Hm2; try lia.
  assert (Hd2 : -1021 <= Zpos (digits2_pos m2) + e').
  { rewrite digits2_log2 in *.
    assert (Z.log2 (shr_m mrs) <= Z.log2 (Zpos m2))
      by (apply Z.log2_le_mono; lia).
    lia. }
  destruct (shr_fexp_pos m2 e' loc_Exact Hd2) as (mrs2 & e2 & -> & Hpos2 & _).
  destruct (shr_m mrs2) as [|m3|m3]; try lia.
  destruct (e2 <=? 1024 - 53); [right; eauto | left; reflexivity].
Qed.

Lemma shl_align_digits (m : positive) (e e' : Z) :
  Zpos (digits2_pos (fst (shl_align m e e'))) + snd (shl_align m e e')
  = Zpos (digits2_pos m) + e.
Proof.
  unfold shl_align. destruct (e' - e) as [|d|d] eqn:Hd; cbn [fst snd]; try lia.
  rewrite digits2_shl. lia.
Qed.

Lemma shl_align_le (m : positive) (e e' : Z) :
  e' <= e -> snd (shl_align m e e') = e'.
Proof.
  intros Hle. unfold shl_align.
  destruct (e' - e) as [|d|d] eqn:Hd; cbn [fst snd]; lia.
Qed.

Lemma SFadd_step_pos (mx : positive) (ex : Z) :
  SFadd 53 1024 (S754_finite false mx ex) Binary64.step = S754_infinity false \/
  exists m' e',
    SFadd 53 1024 (S754_finite false mx ex) Binary64.step = S754_finite false m' e'.
Proof.
  unfold Binary64.step. cbn [SFadd cond_Zopp].
  set (ez := Z.min ex (-59)).
  set (x' := fst (shl_align mx ex ez)).
  pose proof (shl_align_digits 5764607523034235 (-59) ez) as Hy.
  rewrite shl_align_le in Hy by (subst ez; lia).
  set (y' := fst (shl_align 5764607523034235 (-59) ez)) in *.
  cbn [Z.add binary_normalize]. unfold binary_round.
  pose proof (shl_align_digits (x' + y') ez
                (fexp 53 1024 (Zpos (digits2_pos (x' + y')) + ez))) as Hz.
  destruct (shl_align (x' + y') ez _) as [mz ez']. cbn [fst snd] in Hz.
  apply binary_round_aux_pos.
  rewrite Hz. rewrite !digits2_log2 in *.
  assert (Z.log2 (Zpos y') <= Z.log2 (Zpos (x' + y')))
    by (apply Z.log2_le_mono; lia).
  change (Z.log2 (Zpos 5764607523034235)) with 52 in Hy. lia.
Qed.

(** [shr_fexp] on an exact number: a mantissa of at most 53 digits is kept
    as it is, a longer one is cut to 53 digits. *)
Lemma shr_fexp_exact (m : positive) (e : Z) :
  -1021 <= Zpos (digits2_pos m) + e ->
  exists mrs e',
    shr_fexp 53 1024 (Zpos m) e loc_Exact = (mrs, e') /\
    0 < shr_m mrs /\
    Z.log2 (shr_m mrs) + e' = Z.log2 (Zpos m) + e /\
    ((Z.log2 (Zpos m) <= 52 /\ mrs = Build_shr_record (Zpos m) false false) \/
     (52 < Z.log2 (Zpos m) /\ Z.log2 (shr_m mrs) = 52 /\
      shr_m mrs = Z.shiftr (Zpos m) (Z.log2 (Zpos m) - 52))).
Proof.
  intros Hd. unfold shr_fexp, shr. cbn [Zdigits2 shr_record_of_loc].
  rewrite digits2_log2 in *.
  assert (Hf : fexp 53 1024 (Z.log2 (Zpos m) + 1 + e) - e = Z.log2 (Zpos m) - 52)
    by (unfold fexp, SpecFloat.emin; lia).
  rewrite Hf.
  destruct (Z.log2 (Zpos m) - 52) as [|p|p] eqn:Hn.
  - eexists _, _; split; [reflexivity|]. cbn [shr_m].
    split; [lia | split; [lia | left; split; [lia | reflexivity]]].
  - eexists _, _; split; [reflexivity|].
    rewrite iter_shr_1_m by (cbn [shr_m]; lia).
    cbn [shr_m].
    assert (Hl : Z.log2 (Z.shiftr (Zpos m) (Zpos p)) = 52)
      by (rewrite Z.log2_shiftr by lia; lia).
    split; [| split; [lia | right; split; [lia | split; [exact Hl | reflexivity]]]].
    destruct (Z.shiftr (Zpos m) (Zpos p)) eqn:Hs; cbn in Hl; lia.
  - eexists _, _; split; [reflexivity|]. cbn [shr_m].
    split; [lia | split; [lia | left; split; [lia | reflexivity]]].
Qed.

(** Rounding keeps the number of digits before the binary point, or the
    result is the next power of two. *)
Lemma binary_round_aux_bound (m : positive) (e : Z) :
  -1021 <= Zpos (digits2_pos m) + e <= 900 -> e <= 900 ->
  exists m' e',
    binary_round_aux 53 1024 false (Zpos m) e loc_Exact = S754_finite false m' e' /\
    (Zpos (digits2_pos m') + e' = Zpos (digits2_pos m) + e \/
     (m' = 4503599627370496%positive /\ 53 + e' = Zpos (digits2_pos m) + e + 1)).
Proof.
  intros Hd He. unfold binary_round_aux.
  destruct (shr_fexp_exact m e (proj1 Hd)) as (mrs & e' & -> & Hpos & Hlog & Hcase).
  pose proof (round_nearest_even_bounds (shr_m mrs) (loc_of_shr_record mrs)) as Hr.
  rewrite digits2_log2 in *.
  assert (Hfinite : forall (m3 : positive) (e3 : Z), e3 <= 971 ->
            (if e3 <=? 1024 - 53 then S754_finite false m3 e3
             else S754_infinity false) = S754_finite false m3 e3).
  { intros m3 e3 H3. apply Z.leb_le in H3. change (1024 - 53) with 971.
    now rewrite H3. }
  destruct Hcase as [[Hsmall ->] | (_ & H52 & _)].
  - (* nothing is shifted: the number is kept as it is *)
    cbn [shr_m loc_of_shr_record round_nearest_even] in *.
    assert (Hd2 : -1021 <= Zpos (digits2_pos m) + e') by (rewrite digits2_log2; lia).
    destruct (shr_fexp_exact m e' Hd2)
      as (mrs2 & e2 & -> & _ & Hlog2 & [[_ ->] | [Hc2 _]]); [| lia].
    cbn [shr_m] in *. rewrite Hfinite by lia.
    eexists _, _. split; [reflexivity|]. left. rewrite digits2_log2. lia.
  - destruct (round_nearest_even (shr_m mrs) (loc_of_shr_record mrs))
      as [|m2|m2] eqn:Hm2; try lia.
    assert (Hm1 : shr_m mrs < 2 ^ 53).
    { pose proof (proj2 (Z.log2_spec (shr_m mrs) Hpos)) as Hs.
      rewrite H52 in Hs. exact Hs. }
    assert (Hlog2le : Z.log2 (shr_m mrs) <= Z.log2 (Zpos m2))
      by (apply Z.log2_le_mono; lia).
    assert (Hd2 : -1021 <= Zpos (digits2_pos m2) + e') by (rewrite digits2_log2; lia).
    destruct (shr_fexp_exact m2 e' Hd2)
      as (mrs2 & e2 & -> & Hpos2 & Hlog2 & Hcase2).
    destruct Hcase2 as [[Hs2 ->] | (Hbig & Hc2 & Hshift)].
    + cbn [shr_m] in *. rewrite Hfinite by lia.
      eexists _, _. split; [reflexivity|]. left. rewrite digits2_log2. lia.
    + (* the mantissa was rounded up to 2^53 *)
      assert (Hm2' : Zpos m2 = 2 ^ 53).
      { destruct (Z.eq_dec (Zpos m2) (2 ^ 53)) as [|Hne]; [assumption|].
        assert (Zpos m2 < 2 ^ 53) by lia.
        assert (Z.log2 (Zpos m2) < 53) by (apply Z.log2_lt_pow2; lia).
        lia. }
      rewrite Hm2' in Hshift, Hlog2.
      change (Z.shiftr (2 ^ 53) (Z.log2 (2 ^ 53) - 52))
        with (Zpos 4503599627370496) in Hshift.
      rewrite Hshift in Hlog2 |- *.
      change (Z.log2 (Zpos 4503599627370496)) with 52 in Hlog2.
      change (Z.log2 (2 ^ 53)) with 53 in Hlog2.
      rewrite Hfinite by lia.
      eexists _, _. split; [reflexivity|]. right. split; [reflexivity | lia].
Qed.

Lemma shl_value (m d : positive) :
  Zpos (Pos.iter xO m d) = Zpos m * 2 ^ Zpos d.
Proof.
  induction d as [|d IH] using Pos.peano_ind.
  - cbn [Pos.iter]. lia.
  - rewrite Pos.iter_succ, Pos2Z.inj_succ, Z.pow_succ_r by lia.
    rewrite Pos2Z.inj_xO, IH. lia.
Qed.

Lemma shl_align_snd_le (m : positive) (e e' : Z) :
  snd (shl_align m e e') <= e.
Proof.
  unfold shl_align. destruct (e' - e) as [|d|d] eqn:Hd; cbn [fst snd]; lia.
Qed.

Lemma shl_align_value (m : positive) (e e' : Z) :
  e' <= e -> Zpos (fst (shl_align m e e')) = Zpos m * 2 ^ (e - e').
Proof.
  intros Hle. unfold shl_align.
  destruct (e' - e) as [|d|d] eqn:Hd; cbn [fst snd]; try lia.
  - replace (e - e') with 0 by lia. lia.
  - rewrite shl_value. f_equal. f_equal. lia.
Qed.

(** Adding the step to a number that is at most 2^47 gives a number that
    is at most 2^47: below 2^47 the gap to 2^47 is at least 2^-6, more than
    the step, and at 2^47 the step is less than half the distance to the
    next number. *)
Lemma SFadd_step_bound (mx : positive) (ex : Z) :
  Zpos (digits2_pos mx) <= 53 ->
  Binary64.at_most_2p47 mx ex ->
  exists m' e',
    SFadd 53 1024 (S754_finite false mx ex) Binary64.step = S754_finite false m' e' /\
    Binary64.at_most_2p47 m' e'.
Proof.
  intros Hcanon [Hlt | [-> ->]].
  2: { eexists _, _. split; [vm_compute; reflexivity|]. right. split; reflexivity. }
  unfold Binary64.step. cbn [SFadd cond_Zopp].
  set (ez := Z.min ex (-59)).
  assert (Hez : ez <= ex /\ ez <= -59) by (subst ez; lia).
  pose proof (shl_align_digits mx ex ez) as Hx.
  rewrite shl_align_le in Hx by lia.
  pose proof (shl_align_value mx ex ez (proj1 Hez)) as Hxv.
  set (x' := fst (shl_align mx ex ez)) in *.
  pose proof (shl_align_digits 5764607523034235 (-59) ez) as Hy.
  rewrite shl_align_le in Hy by lia.
  pose proof (shl_align_value 5764607523034235 (-59) ez (proj2 Hez)) as Hyv.
  set (y' := fst (shl_align 5764607523034235 (-59) ez)) in *.
  cbn [Z.add binary_normalize]. unfold binary_round.
  pose proof (shl_align_digits (x' + y') ez
                (fexp 53 1024 (Zpos (digits2_pos (x' + y')) + ez))) as Hz.
  pose proof (shl_align_snd_le (x' + y') ez
                (fexp 53 1024 (Zpos (digits2_pos (x' + y')) + ez))) as Hzle.
  destruct (shl_align (x' + y') ez _) as [mz ez']. cbn [fst snd] in Hz, Hzle.
  rewrite !digits2_log2 in *.
  change (Z.log2 (Zpos 5764607523034235)) with 52 in Hy.
  assert (Hlow : Z.log2 (Zpos y') <= Z.log2 (Zpos (x' + y')))
    by (apply Z.log2_le_mono; lia).
  assert (Hhigh : Z.log2 (Zpos (x' + y')) + 1 + ez <= 47).
  { assert (Hsum : Zpos (x' + y') < 2 ^ (47 - ez)).
    { rewrite Pos2Z.inj_add.
      destruct (Z.eq_dec (Z.log2 (Zpos mx) + 1 + ex) 47) as [H47 | Hne].
      - (* the top binade: the gap to 2^47 is larger than the step *)
        assert (ex >= -6) by lia. assert (Hez59 : ez = -59) by lia.
        rewrite Hxv, Hyv, Hez59.
        replace (-59 - -59) with 0 by lia. rewrite Z.pow_0_r.
        replace (47 - -59) with ((Z.log2 (Zpos mx) + 1) + (ex - -59)) by lia.
        rewrite Z.pow_add_r by (pose proof (Z.log2_nonneg (Zpos mx)); lia).
        assert (Hm : Zpos mx + 1 <= 2 ^ (Z.log2 (Zpos mx) + 1)).
        { pose proof (Z.log2_spec (Zpos mx) ltac:(lia)) as Hs.
          rewrite <- Z.add_1_r in Hs. lia. }
        assert (Hp : 2 ^ 53 <= 2 ^ (ex - -59)) by (apply Z.pow_le_mono_r; lia).
        nia.
      - assert (Hxb : Zpos x' < 2 ^ (46 - ez)).
        { apply Z.log2_lt_pow2; lia. }
        assert (Hyb : Zpos y' < 2 ^ (-6 - ez)).
        { apply Z.log2_lt_pow2; lia. }
        assert (Hp1 : 2 ^ (-6 - ez) <= 2 ^ (46 - ez)) by (apply Z.pow_le_mono_r; lia).
        replace (47 - ez) with (Z.succ (46 - ez)) by lia.
        rewrite Z.pow_succ_r by lia. lia. }
    assert (Z.log2 (Zpos (x' + y')) < 47 - ez) by (apply Z.log2_lt_pow2; lia).
    lia. }
  destruct (binary_round_aux_bound mz ez') as (m' & e' & -> & Hres).
  { rewrite digits2_log2. lia. }
  { lia. }
  eexists _, _. split; [reflexivity|]. unfold Binary64.at_most_2p47.
  rewrite !digits2_log2 in *.
  destruct Hres as [Hres | [-> Hres]].
  - left. lia.
  - change (Z.log2 (Zpos 4503599627370496)) with 52.
    destruct (Z.eq_dec e' (-5)) as [-> | Hne]; [right; auto | left; lia].
Qed.

(** Rounding does not lower the magnitude. *)
Lemma binary_round_aux_low (m : positive) (e : Z) (m' : positive) (e' : Z) :
  -1021 <= Zpos (digits2_pos m) + e ->
  binary_round_aux 53 1024 false (Zpos m) e loc_Exact = S754_finite false m' e' ->
  Zpos (digits2_pos m) + e <= Zpos (digits2_pos m') + e'.
Proof.
  intros Hd. unfold binary_round_aux.
  destruct (shr_fexp_pos m e loc_Exact Hd) as (mrs & e1 & -> & Hpos & Hlog).
  pose proof (round_nearest_even_bounds (shr_m mrs) (loc_of_shr_record mrs))
    as Hr.
  destruct (round_nearest_even (shr_m mrs) (loc_of_shr_record mrs))
    as [|m2|m2] eqn:Hm2; try lia.
  assert (Hle : Z.log2 (shr_m mrs) <= Z.log2 (Zpos m2))
    by (apply Z.log2_le_mono; lia).
  assert (Hd2 : -1021 <= Zpos (digits2_pos m2) + e1)
    by (rewrite digits2_log2 in *; lia).
  destruct (shr_fexp_pos m2 e1 loc_Exact Hd2) as (mrs2 & e2 & -> & Hpos2 & Hlog2).
  destruct (shr_m mrs2) as [|m3|m3] eqn:Hm3; try lia.
  destruct (e2 <=? 1024 - 53); [| discriminate].
  intros Hres. injection Hres as <- <-.
  rewrite !digits2_log2. lia.
Qed.

(** The sum of a number that is not negative and the step is at least
    2^-7, the step being above it. *)
Lemma SFadd_step_low (mx : positive) (ex : Z) (m' : positive) (e' : Z) :
  SFadd 53 1024 (S754_finite false mx ex) Binary64.step = S754_finite false m' e' ->
  -6 <= Zpos (digits2_pos m') + e'.
Proof.
  unfold Binary64.step. cbn [SFadd cond_Zopp].
  set (ez := Z.min ex (-59)).
  set (x' := fst (shl_align mx ex ez)).
  pose proof (shl_align_digits 5764607523034235 (-59) ez) as Hy.
  rewrite shl_align_le in Hy by (subst ez; lia).
  set (y' := fst (shl_align 5764607523034235 (-59) ez)) in *.
  cbn [Z.add binary_normalize]. unfold binary_round.
  pose proof (shl_align_digits (x' + y') ez
                (fexp 53 1024 (Zpos (digits2_pos (x' + y')) + ez))) as Hz.
  destruct (shl_align (x' + y') ez _) as [mz ez']. cbn [fst snd] in Hz.
  assert (Hlow : Z.log2 (Zpos y') <= Z.log2 (Zpos (x' + y')))
    by (apply Z.log2_le_mono; lia).
  rewrite !digits2_log2 in Hy, Hz.
  change (Z.log2 (Zpos 5764607523034235)) with 52 in Hy.
  intros Hres. apply binary_round_aux_low in Hres.
  - change (-6 <= Zpos (digits2_pos m') + e').
    rewrite !digits2_log2 in *. lia.
  - rewrite digits2_log2. lia.
Qed.

Lemma valid_canonical (s : bool) (m : positive) (e : Z) :
  valid_binary (S754_finite s m e) = true ->
  Zpos (digits2_pos m) <= 53 /\
  e = Z.max (Zpos (digits2_pos m) + e - 53) (-1074).
Proof.
  cbn [SpecFloat.valid_binary]. unfold bounded, canonical_mantissa, fexp, SpecFloat.emin.
  intros H. apply andb_prop in H as [H _]. apply Z.eqb_eq in H.
  change (3 - emax - prec) with (-1074) in H. change prec with 53 in H.
  lia.
Qed.

Local Open Scope float_scope.

Lemma add_step_positive (x : float) :
  x = 0 \/ Binary64.positive_float x -> Binary64.positive_float (x + 0.01).
Proof.
  unfold Binary64.positive_float. rewrite FloatAxioms.add_spec. unfold SF64add.
  change (Prim2SF 0.01) with Binary64.step.
  intros [-> | [Hx | (m & e & Hx)]].
  - right. vm_compute. eauto.
  - rewrite Hx. left. reflexivity.
  - rewrite Hx. apply SFadd_step_pos.
Qed.

Lemma positive_float_not_zero (x : float) :
  Binary64.positive_float x -> x <> 0 /\ x <> (-0) /\ x <> nan.
Proof.
  intros Hx.
  repeat split; intros ->; destruct Hx as [Hx | (m & e & Hx)];
    vm_compute in Hx; discriminate.
Qed.

(** On binary64 the angle is above zero after any positive number of
    rotating frames. *)
Lemma angleAfter_positive (cos sin : float -> float) (k : nat) :
  Binary64.positive_float (angleAfter (A := Binary64.JS cos sin) (S k)).
Proof.
  unfold angleAfter.
  induction k as [|k IH]; rewrite Nat.iter_succ; unfold nextAngle at 1;
    cbn [add lit Binary64.JS];
    change (Binary64.literal (1 # 100)) with 0.01;
    apply add_step_positive.
  - left. reflexivity.
  - right. exact IH.
Qed.

Lemma add_step_bounded (x : float) :
  Binary64.bounded_angle x -> Binary64.bounded_angle (x + 0.01).
Proof.
  unfold Binary64.bounded_angle. rewrite FloatAxioms.add_spec. unfold SF64add.
  change (Prim2SF 0.01) with Binary64.step.
  intros [Hx | (m & e & Hx & Hb)].
  - rewrite Hx. right. eexists _, _. split; [reflexivity|]. left. vm_compute. discriminate.
  - pose proof (Prim2SF_valid x) as Hv. rewrite Hx in *.
    apply valid_canonical in Hv as [Hd _].
    right. apply (SFadd_step_bound m e Hd Hb).
Qed.

Lemma bounded_angle_leb (x : float) :
  Binary64.bounded_angle x -> (x <=? 140737488355328) = true.
Proof.
  intros Hb. rewrite FloatAxioms.leb_spec.
  change (Prim2SF 140737488355328) with (S754_finite false 4503599627370496 (-5)).
  pose proof (Prim2SF_valid x) as Hv.
  destruct Hb as [-> | (m & e & Hx & [Hlt | [-> ->]])].
  - reflexivity.
  - rewrite Hx in *. apply valid_canonical in Hv as [Hd He].
    unfold SFleb, SFcompare.
    assert (Hc : (e ?= -5)%Z = Lt) by (apply Z.compare_lt_iff; lia).
    now rewrite Hc.
  - rewrite Hx. reflexivity.
Qed.

(** On binary64 the angle never exceeds 2^47. *)
Lemma angleAfter_bounded (cos sin : float -> float) (k : nat) :
  Binary64.bounded_angle (angleAfter (A := Binary64.JS cos sin) k).
Proof.
  unfold angleAfter.
  induction k as [|k IH].
  - left. reflexivity.
  - rewrite Nat.iter_succ. unfold nextAngle at 1.
    cbn [add lit Binary64.JS].
    change (Binary64.literal (1 # 100)) with 0.01.
    apply add_step_bounded, IH.
Qed.

Lemma add_step_low (x : float) :
  Binary64.bounded_angle x -> at_least_2pm7 (x + 0.01).
Proof.
  unfold at_least_2pm7. rewrite FloatAxioms.add_spec. unfold SF64add.
  change (Prim2SF 0.01) with Binary64.step.
  intros [Hx | (m & e & Hx & Hb)].
  - rewrite Hx. eexists _, _. split; [reflexivity|]. vm_compute. discriminate.
  - pose proof (Prim2SF_valid x) as Hv. rewrite Hx in *.
    apply valid_canonical in Hv as [Hd _].
    destruct (SFadd_step_bound m e Hd Hb) as (m' & e' & Heq & _).
    exists m', e'. split; [exact Heq|]. exact (SFadd_step_low m e m' e' Heq).
Qed.

(** On binary64 the angle is at least 2^-7 after any positive number of
    rotating frames. *)
Lemma angleAfter_low (cos sin : float -> float) (k : nat) :
  at_least_2pm7 (angleAfter (A := Binary64.JS cos sin) (S k)).
Proof.
  unfold angleAfter. rewrite Nat.iter_succ. unfold nextAngle at 1.
  cbn [add lit Binary64.JS].
  change (Binary64.literal (1 # 100)) with 0.01.
  apply add_step_low, (angleAfter_bounded cos sin k).
Qed.

Lemma at_least_2pm7_leb (x : float) :
  at_least_2pm7 x -> (0.0078125 <=? x) = true.
Proof.
  intros (m & e & Hx & Hlow). rewrite FloatAxioms.leb_spec.
  change (Prim2SF 0.0078125) with (S754_finite false 4503599627370496 (-59)).
  pose proof (Prim2SF_valid x) as Hv. rewrite Hx in *.
  apply valid_canonical in Hv as [Hd He].
  unfold SFleb, SFcompare.
  destruct (Z.compare_spec (-59) e) as [<- | Hlt | Hgt].
  - assert (Hm : (4503599627370496 <= m)%positive).
    { rewrite digits2_log2 in *.
      assert (H52 : (52 <= Z.log2 (Zpos m))%Z) by lia.
      apply Z.log2_le_pow2 in H52; lia. }
    apply Pos.compare_le_iff in Hm. cbn [Pos.compare].
    destruct (Pos.compare_cont Eq 4503599627370496 m) eqn:Hc;
      [reflexivity | reflexivity | contradiction].
  - reflexivity.
  - lia.
Qed.

End Rounding.

(** * The frame loop *)

Section ExactFrames.

Context {A : Arith} (HA : ExactArith A).

Add Ring exact_frames_ring : (exact_ring A HA).

(** In arithmetic without rounding the angle after [n] rotating frames is
    the initial angle plus [n] times the step. *)
Lemma frames_rotating_exact (app : App A) (h : Host A) (n : nat) :
  isRotating app = true ->
  rotationAngle (fst (frames n app h))
  = add (rotationAngle app) (mul (lit (1#100)) (ofNat n)).
Proof.
  intros Hr. destruct (frames_rotating n app h Hr) as [-> _].
  induction n as [|n IH].
  - cbn [Nat.iter nat_rect]. rewrite (exact_ofNat_0 A HA). ring.
  - rewrite Nat.iter_succ, IH, (exact_ofNat_S A HA). unfold nextAngle. ring.
Qed.

End ExactFrames.

(** C2 (as amended).  While rotation is active, a call of [frame] replaces
    the angle by the sum of the angle and the literal 0.01, computed as the
    arithmetic computes it (one rounded addition in binary64); after [n]
    calls the angle is the result of [n] such additions, and rotation is
    still active.  The sum is taken as it is, whatever its size: nothing
    reduces the angle modulo a full turn.  In arithmetic without rounding
    the angle after [n] calls is the initial angle plus [n] times 0.01. *)
Theorem frames_rotating_angle
  (A : Arith) (app : App A) (h : Host A) (n : nat) :
  isRotating app = true ->
  rotationAngle (fst (frame app h)) = add (rotationAngle app) (lit (1#100)) /\
  rotationAngle (fst (frames n app h))
  = Nat.iter n (fun x => add x (lit (1#100))) (rotationAngle app) /\
  isRotating (fst (frames n app h)) = true /\
  (ExactArith A ->
   rotationAngle (fst (frames n app h))
   = add (rotationAngle app) (mul (lit (1#100)) (ofNat n))).
Proof.
  intros Hr. split.
  - now rewrite (frame_rotating app h Hr).
  - destruct (frames_rotating n app h Hr) as [Ha Hi].
    split; [exact Ha | split; [exact Hi|]].
    intros HA. apply (frames_rotating_exact HA app h n Hr).
Qed.

(** Six frames from the start of rendering: on the real numbers, and on
    binary64. *)
Lemma frames_rotating_angle_six :
  (isRotating (A := Exact.Real) startApp = true /\
   rotationAngle
     (fst (frames (A := Exact.Real) 6 startApp (startHost webgpuBrowser)))
   = (Q2R 0 + Q2R (1#100) * INR 6)%R) /\
  forall cos sin : float -> float,
    rotationAngle
      (fst (frames (A := Binary64.JS cos sin) 6 startApp (startHost webgpuBrowser)))
    = 0.060000000000000005%float.
Proof.
  split.
  - split; [reflexivity|].
    destruct (frames_rotating_angle Exact.Real startApp
                (startHost webgpuBrowser) 6 eq_refl) as (_ & _ & _ & H).
    exact (H Real_exact).
  - intros cos sin.
    destruct (frames_rotating_angle (Binary64.JS cos sin) startApp
                (startHost webgpuBrowser) 6 eq_refl) as (_ & -> & _).
    reflexivity.
Defined.

(** C2, as stated, fails.  After the script has started and five animation
    frames have been delivered, [frame] has been called six times with
    rotation active, and the angle is 0.060000000000000005, which is not
    [0 + 0.01 * 6] (that is 0.06, printed 0.059999999999999998).  And the
    angle does not grow without bound: in no execution does it exceed
    140737488355328, which is 2^47. *)
Lemma angle_is_rounded_and_bounded :
  (~ exists cos sin : float -> float,
       angleOf (run (Binary64.JS cos sin) webgpuBrowser
                  [AnimationFrame; AnimationFrame; AnimationFrame;
                   AnimationFrame; AnimationFrame])
       = Some (@add (Binary64.JS cos sin) (lit 0)
                 (mul (lit (1#100)) (ofNat 6)))) /\
  (forall (cos sin : float -> float) (e : Env) (events : list Event)
          (x : float),
     angleOf (run (Binary64.JS cos sin) e events) = Some x ->
     (x <=? 140737488355328)%float = true).
Proof.
  split.
  - intros (cos & sin & H).
    apply (f_equal (fun o => match o with Some x => x | None => 0%float end)) in H.
    vm_compute in H. float_discriminate H.
  - intros cos sin e events x Hx. unfold angleOf in Hx.
    destruct (supported e) eqn:Hs.
    + destruct (run_Running (A := Binary64.JS cos sin) e events Hs)
        as (app & h & Hrun & HR).
      rewrite Hrun in Hx. cbn [fst option_map] in Hx.
      destruct (running_uploads _ _ _ _ HR) as (k & _ & Hk).
      rewrite Hk in Hx. injection Hx as <-.
      apply Rounding.bounded_angle_leb.
      exact (Rounding.angleAfter_bounded cos sin (S k)).
    + destruct (run_unsupported (A := Binary64.JS cos sin) e events Hs)
        as [Hrun Hnone].
      rewrite Hrun, Hnone in Hx. discriminate.
Qed.

(** From 2^47 on, adding the step leaves the angle as it is. *)
Lemma angle_stalls (cos sin : float -> float)
  (h : Host (Binary64.JS cos sin)) (n : nat) :
  rotationAngle
    (fst (frames n
            (setRotationAngle (A := Binary64.JS cos sin)
               140737488355328%float startApp) h))
  = 140737488355328%float.
Proof.
  destruct (frames_rotating n
              (setRotationAngle (A := Binary64.JS cos sin)
                 140737488355328%float startApp) h eq_refl) as [-> _].
  cbn [rotationAngle setRotationAngle].
  induction n as [|n IH]; [reflexivity|].
  rewrite Nat.iter_succ, IH. reflexivity.
Qed.

(** After 629 rotating frames the angle has passed a full turn, and is not
    brought back. *)
Lemma angle_passes_a_full_turn (cos sin : float -> float)
  (h : Host (Binary64.JS cos sin)) :
  rotationAngle (fst (frames (A := Binary64.JS cos sin) 629 startApp h))
  = 6.2899999999999103%float.
Proof.
  destruct (frames_rotating 629 (startApp (A := Binary64.JS cos sin)) h eq_refl)
    as [-> _].
  vm_compute. reflexivity.
Qed.

Lemma run_Some (A : Arith) (e : Env) (events : list Event)
  (app : App A) (h : Host A) :
  run A e events = (Some app, h) ->
  supported e = true /\ Running e events app h.
Proof.
  intros Hrun. destruct (supported e) eqn:Hs.
  - split; [reflexivity|].
    destruct (run_Running (A := A) e events Hs) as (app' & h' & Hrun' & HR).
    rewrite Hrun in Hrun'. inversion Hrun'; subst. exact HR.
  - destruct (run_unsupported (A := A) e events Hs) as [Hb Hn].
    rewrite <- Hb, Hrun in Hn. discriminate.
Qed.

Lemma run_paused_frames (A : Arith) (e : Env) (events : list Event)
  (app : App A) (h : Host A) (n : nat) :
  run A e events = (Some app, h) ->
  isRotating app = false ->
  exists app' h',
    run A e (events ++ repeat AnimationFrame n) = (Some app', h') /\
    rotationAngle app' = rotationAngle app /\
    isRotating app' = false /\
    buffers h' = buffers h /\
    uploads (calls h') = uploads (calls h).
Proof.
  intros Hrun Hp. induction n as [|n IH].
  - cbn [repeat]. rewrite app_nil_r. eauto 10.
  - destruct IH as (app1 & h1 & Hrun1 & Ha & Hr & Hb & Hu).
    cbn [repeat]. rewrite repeat_cons, app_assoc, run_snoc, Hrun1.
    destruct (run_Some _ _ _ _ _ Hrun1) as [_ HR].
    cbn [dispatch]. rewrite (running_animationFrames _ _ _ _ HR).
    rewrite (frame_paused _ _ Hr).
    eexists _, _. split; [reflexivity|].
    cbn [rotationAngle isRotating setView buffers calls setAnimationFrames].
    rewrite uploads_app, uploads_renderCalls, app_nil_r. auto.
Qed.

(** C3.  When rotation is paused, any number of animation frames in a row
    leaves the rotation angle and the contents of every buffer as they
    were, and writes nothing to the uniform buffer: it still holds the
    matrix written by the last rotating frame, the one for the angle at
    which rotation stopped. *)
Theorem paused_frames_keep_transform (A : Arith) (e : Env)
  (events : list Event) (app : App A) (h : Host A) (n : nat) :
  run A e events = (Some app, h) ->
  isRotating app = false ->
  exists app' h',
    run A e (events ++ repeat AnimationFrame n) = (Some app', h') /\
    rotationAngle app' = rotationAngle app /\
    isRotating app' = false /\
    buffers h' = buffers h /\
    uploads (calls h') = uploads (calls h) /\
    nth_error (buffers h') (uniformBuffer app')
    = Some (uniformBufferObject
              (transform (rotationAngle app) ++ repeat (lit 0) 48)) /\
    last (uploads (calls h')) [] = transform (rotationAngle app).
Proof.
  intros Hrun Hp.
  destruct (run_paused_frames A e events app h n Hrun Hp)
    as (app' & h' & Hrun' & Ha & Hr & Hb & Hu).
  exists app', h'. repeat (split; [assumption|]).
  destruct (run_Some _ _ _ _ _ Hrun') as [_ HR].
  split.
  - rewrite (running_buffers _ _ _ _ HR), (running_uniformBuffer _ _ _ _ HR), Ha.
    reflexivity.
  - destruct (running_uploads _ _ _ _ HR) as (k & Hk & Hk').
    rewrite Hk, seq_S, map_app. cbn [map Nat.add].
    rewrite last_last, <- Hk', Ha. reflexivity.
Qed.

(** A click, then three animation frames, on the real numbers. *)
Lemma paused_frames_keep_transform_after_click :
  exists (app app' : App Exact.Real) (h h' : Host Exact.Real),
    run Exact.Real webgpuBrowser [Click] = (Some app, h) /\
    isRotating app = false /\
    run Exact.Real webgpuBrowser ([Click] ++ repeat AnimationFrame 3)
    = (Some app', h') /\
    rotationAngle app' = rotationAngle app /\
    buffers h' = buffers h.
Proof.
  destruct (run_Running (A := Exact.Real) webgpuBrowser [Click] eq_refl)
    as (app & h & Hrun & HR).
  assert (Hp : isRotating app = false)
    by (rewrite (running_isRotating _ _ _ _ HR); reflexivity).
  destruct (paused_frames_keep_transform Exact.Real webgpuBrowser [Click]
              app h 3 Hrun Hp) as (app' & h' & Hrun' & Ha & _ & Hb & _).
  exists app, app', h, h'. auto.
Defined.

(** C4.  The click listener negates [isRotating]: after an even number of
    clicks the flag has its original value, after an odd number the
    opposite one.  Nothing else changes it: [frame] leaves it alone, and in
    every execution its value is decided by the parity of the number of
    clicks delivered (it starts as [true]). *)
Theorem click_toggles_rotation (A : Arith) (app : App A) (n : nat) :
  isRotating (Nat.iter n onClick app)
  = (if Nat.even n then isRotating app else negb (isRotating app)) /\
  (forall h : Host A, isRotating (fst (frame app h)) = isRotating app) /\
  (forall (e : Env) (events : list Event),
     option_map isRotating (fst (run A e events))
     = if supported e then Some (Nat.even (clicks events)) else None).
Proof.
  split; [apply onClick_iter | split].
  - intros h. apply frame_isRotating.
  - intros e events. destruct (supported e) eqn:Hs.
    + destruct (run_Running (A := A) e events Hs) as (app' & h' & -> & HR).
      cbn [fst option_map]. now rewrite (running_isRotating _ _ _ _ HR).
    + destruct (run_unsupported (A := A) e events Hs) as [-> ->]. reflexivity.
Qed.

(** C10.  A click changes [isRotating] and nothing else, in particular not
    the angle.  So when rotation is paused by a click, any number of frames
    go by, and rotation is resumed by a second click, the first frame after
    that continues from the angle at which rotation was paused: it sets the
    angle to that angle plus the step. *)
Theorem angle_preserved_across_pause
  (A : Arith) (app : App A) (h : Host A) (n : nat) :
  isRotating app = true ->
  onClick app = setIsRotating false app /\
  rotationAngle (onClick app) = rotationAngle app /\
  let paused := frames n (onClick app) h in
  rotationAngle (fst paused) = rotationAngle app /\
  isRotating (onClick (fst paused)) = true /\
  rotationAngle (fst (frame (onClick (fst paused)) (snd paused)))
  = add (rotationAngle app) (lit (1#100)).
Proof.
  intros Hr. split; [unfold onClick; now rewrite Hr | split; [reflexivity|]].
  assert (Hp : isRotating (onClick app) = false)
    by (unfold onClick; cbn [isRotating setIsRotating]; now rewrite Hr).
  destruct (frames_paused n (onClick app) h Hp) as (Ha & Hr' & _).
  cbn zeta. rewrite Ha.
  assert (Hr'' : isRotating (onClick (fst (frames n (onClick app) h))) = true)
    by (unfold onClick at 1; cbn [isRotating setIsRotating]; now rewrite Hr').
  split; [reflexivity | split; [exact Hr''|]].
  rewrite (frame_rotating _ _ Hr''). cbn [fst rotationAngle setView setRotationAngle].
  unfold nextAngle. unfold onClick at 1. cbn [rotationAngle setIsRotating].
  now rewrite Ha.
Qed.

(** A pause of four frames after the first frame of the script, on the
    real numbers. *)
Lemma angle_preserved_across_pause_of_four :
  let started := frame (A := Exact.Real) startApp (startHost webgpuBrowser) in
  let paused := frames 4 (onClick (fst started)) (snd started) in
  isRotating (fst started) = true /\
  rotationAngle (fst (frame (onClick (fst paused)) (snd paused)))
  = (rotationAngle (fst started) + Q2R (1#100))%R.
Proof.
  intros started paused.
  assert (Hr : isRotating (fst started) = true) by reflexivity.
  split; [exact Hr|].
  apply (angle_preserved_across_pause Exact.Real (fst started) (snd started) 4 Hr).
Defined.

(** * Rendering, initialization and failure *)

Lemma setup_Some (A : Arith) (e : Env) (app : App A) (h : Host A) :
  setup (fresh e) = (Some app, h) -> app = startApp /\ h = startHost e.
Proof.
  intros H. destruct (adapterAvailable e) eqn:Ha.
  - destruct (deviceAvailable e) eqn:Hd.
    + rewrite (setup_supported e Ha Hd) in H. inversion H. auto.
    + rewrite (setup_no_device e Ha Hd) in H. discriminate.
  - rewrite (setup_no_adapter e Ha) in H. discriminate.
Qed.

(** What [frame] relies on whenever it is called. *)
Lemma Invokes_ready (A : Arith) (e : Env) (app : App A) (h : Host A) :
  Invokes e app h ->
  (vertexBuffer app = 0 /\ pipeline app = 10 /\ uniformBuffer app = 1 /\
   bindGroup app = 13) /\
  (loadOp (renderPassDescriptor app) = "clear" /\
   clearValue (renderPassDescriptor app) = backgroundColor /\
   storeOp (renderPassDescriptor app) = "store") /\
  (exists rendering,
     calls h = setupCalls (preferredCanvasFormat e) ++ rendering) /\
  (exists data, buffers h = [vertexBufferObject; uniformBufferObject data]).
Proof.
  intros [app' h' _ Hs | events app' h' pending Hrun _].
  - apply setup_Some in Hs as [-> ->]. repeat split.
    + exists []. cbn [calls startHost]. now rewrite app_nil_r.
    + eexists. reflexivity.
  - destruct (run_Some _ _ _ _ _ Hrun) as [_ HR]. destruct HR.
    cbn [calls buffers setAnimationFrames]. repeat split; try assumption.
    + destruct running_calls0 as (rendering & -> & _). eauto.
    + eauto.
Qed.

(** C5.  Whenever the script calls [frame], with rotation active or
    paused, the calls it makes are: the upload of the matrix when rotation
    is active, and then, in this order, the acquisition of the current
    texture and its view, a render pass that clears to the colour
    (0, 0.2, 0.4, 1) and stores, the binding of the pipeline, of the bind
    group at index 0 and of the vertex buffer at slot 0, one draw of 3
    vertices and 1 instance, the end of the pass, and the submission.  The
    pipeline is the one created by [initWebGPU], the bind group binds the
    uniform buffer at binding 0, and the vertex buffer holds the vertex
    data. *)
Theorem frame_draws_the_triangle
  (A : Arith) (e : Env) (app : App A) (h : Host A) :
  Invokes e app h ->
  let upload :=
    if isRotating app
    then [ writeBuffer (uniformBuffer app) 0
             (createTransformationMatrix
                (add (rotationAngle app) (lit (1#100))) (lit 0) (lit 0)) ]
    else [] in
  let n := List.length (calls h ++ upload) in
  calls (snd (frame app h)) =
    calls h ++ upload ++
    [ getCurrentTexture;
      createView n;
      createCommandEncoder;
      beginRenderPass
        {| view := Some (S n);
           loadOp := "clear";
           clearValue := {| r := lit 0; g := lit (2#10); b := lit (4#10);
                            a := lit 1 |};
           storeOp := "store" |};
      setPipeline (pipeline app);
      setBindGroup 0 (bindGroup app);
      setVertexBuffer 0 (vertexBuffer app);
      draw 3 1 0 0;
      endPass;
      finish;
      submit [n + 9];
      requestAnimationFrame ] /\
  count isDraw (skipn (List.length (calls h)) (calls (snd (frame app h)))) = 1 /\
  (exists d, nth_error (calls h) (pipeline app) = Some (createRenderPipeline d)) /\
  (exists bindGroupLayout,
     nth_error (calls h) (bindGroup app)
     = Some (createBindGroup bindGroupLayout
               [ {| binding := 0; resource_buffer := uniformBuffer app |} ])) /\
  (exists data,
     nth_error (buffers h) (uniformBuffer app) = Some (uniformBufferObject data)) /\
  nth_error (buffers h) (vertexBuffer app) = Some vertexBufferObject.
Proof.
  intros Hinv.
  destruct (Invokes_ready A e app h Hinv)
    as ((Hvb & Hp & Hub & Hbg) & (Hlo & Hcv & Hso) & (rendering & Hc) &
        (data & Hb)).
  assert (Hskip : forall l l' : list (Call A),
             skipn (List.length l) (l ++ l') = l').
  { intros l l'. rewrite skipn_app, skipn_all, Nat.sub_diag. reflexivity. }
  cbn zeta. split; [| split].
  - destruct (isRotating app) eqn:Hr.
    + rewrite (frame_rotating app h Hr). cbn [snd calls].
      unfold renderCalls. rewrite Hlo, Hcv, Hso, length_app.
      cbn [List.length List.app]. rewrite Nat.add_1_r. reflexivity.
    + rewrite (frame_paused app h Hr). cbn [snd calls].
      unfold renderCalls. rewrite Hlo, Hcv, Hso, app_nil_r. reflexivity.
  - destruct (isRotating app) eqn:Hr.
    + rewrite (frame_rotating app h Hr). cbn [snd calls].
      rewrite Hskip. reflexivity.
    + rewrite (frame_paused app h Hr). cbn [snd calls].
      rewrite Hskip. reflexivity.
  - rewrite Hc, Hb, Hvb, Hp, Hub, Hbg.
    repeat split; eexists; reflexivity.
Qed.

(** The frame called at the end of [initWebGPU], on the real numbers. *)
Lemma frame_draws_the_triangle_at_start :
  Invokes (A := Exact.Real) webgpuBrowser startApp (startHost webgpuBrowser) /\
  count isDraw
    (skipn 15 (calls (snd (frame (A := Exact.Real) startApp
                             (startHost webgpuBrowser))))) = 1.
Proof.
  assert (Hinv : Invokes (A := Exact.Real) webgpuBrowser startApp
                   (startHost webgpuBrowser))
    by (apply invokes_start; reflexivity).
  split; [exact Hinv|].
  destruct (frame_draws_the_triangle Exact.Real webgpuBrowser startApp
              (startHost webgpuBrowser) Hinv) as [-> _].
  reflexivity.
Defined.

(** C7.  On an environment with WebGPU, after initialization and at any
    later time, the script has created one render pipeline and two
    buffers.  The first is the vertex buffer: its size is 60 bytes, that of
    3 vertices of 5 floats of 4 bytes; it was filled with the vertex data
    while mapped at creation, by the only call that ever writes to it, and
    it still holds that data.  The second is the uniform buffer, of 256
    bytes, at least the 64 bytes of a matrix.  No buffer is created later,
    and a buffer keeps its size. *)
Theorem initialization_creates_resources
  (A : Arith) (e : Env) (events : list Event) :
  supported e = true ->
  let h := snd (run A e events) in
  count isCreateRenderPipeline (calls h) = 1 /\
  count isCreateBuffer (calls h) = 2 /\
  (exists data,
     buffers h =
       [ {| descriptor := {| size := 3 * 5 * BYTES_PER_ELEMENT;
                             usage := GPUBufferUsage_VERTEX;
                             mappedAtCreation := true |};
            mapped := false;
            contents := vertexData |};
         {| descriptor := {| size := 256;
                             usage := N.lor GPUBufferUsage_UNIFORM
                                        GPUBufferUsage_COPY_DST;
                             mappedAtCreation := false |};
            mapped := false;
            contents := data |} ] /\
     List.length data = 64) /\
  List.length (vertexData (A := A)) = 3 * 5 /\
  (64 <= 256)%N /\
  count (writesTo 0) (calls h) = 1 /\
  firstn 3 (skipn 7 (calls h)) =
    [ createBuffer {| size := 60; usage := 32; mappedAtCreation := true |};
      setMappedRange 0 vertexData;
      unmap 0 ].
Proof.
  intros Hs. cbn zeta.
  destruct (run_Running (A := A) e events Hs) as (app & h & -> & HR).
  cbn [snd]. destruct HR.
  destruct running_calls0 as (rendering & -> & Hrd & Hw).
  assert (Hnone : forall p : Call A -> bool,
             (forall c, isRendering c = true -> p c = false) ->
             count p rendering = 0).
  { intros p Hp. unfold count. clear Hw.
    induction rendering as [|c l IH]; [reflexivity|].
    cbn [forallb] in Hrd. apply andb_prop in Hrd as [Hc Hl].
    cbn [filter]. rewrite (Hp c Hc). auto. }
  assert (Hw0 : count (writesTo 0) rendering = 0).
  { unfold count. clear Hrd Hnone.
    induction rendering as [|c l IH]; [reflexivity|].
    cbn [forallb] in Hw. apply andb_prop in Hw as [Hc Hl].
    cbn [filter]. apply negb_true_iff in Hc. rewrite Hc. auto. }
  rewrite !count_app, Hw0.
  rewrite !Hnone by (intros []; cbn; congruence).
  rewrite running_buffers0.
  repeat split; try reflexivity; try (now apply N.leb_le).
  exists (transform (rotationAngle app) ++ repeat (lit 0) 48).
  split; reflexivity.
Qed.

(** The script after a click and two animation frames, on the real
    numbers. *)
Lemma initialization_creates_resources_in_browser :
  supported webgpuBrowser = true /\
  count isCreateRenderPipeline
    (calls (snd (run Exact.Real webgpuBrowser
                   [Click; AnimationFrame; AnimationFrame]))) = 1 /\
  count isCreateBuffer
    (calls (snd (run Exact.Real webgpuBrowser
                   [Click; AnimationFrame; AnimationFrame]))) = 2.
Proof.
  split; [reflexivity|].
  destruct (initialization_creates_resources Exact.Real webgpuBrowser
              [Click; AnimationFrame; AnimationFrame] eq_refl)
    as (H1 & H2 & _).
  split; assumption.
Defined.

(** C8.  When [navigator.gpu] is missing, or when no adapter is available,
    the script reports one error on the console and stops: it asks for an
    adapter at most once and never for a device, creates no buffer and no
    pipeline, registers no listener, requests no animation frame and makes
    no call that belongs to rendering; and whatever events follow, nothing
    more happens. *)
Theorem unsupported_platform_stops
  (A : Arith) (e : Env) (events : list Event) :
  navigator_gpu e = false \/ adapterAvailable e = false ->
  let s := run A e events in
  fst s = None /\
  calls (snd s) =
    (if navigator_gpu e
     then [ getElementById "gpuCanvas";
            requestAdapter "high-performance";
            console_error "WebGPU adapter not available. Your hardware or browser may not support WebGPU." ]
     else [ console_error "WebGPU is not supported on this browser." ]) /\
  count isConsoleError (calls (snd s)) = 1 /\
  count isRequestAdapter (calls (snd s)) <= 1 /\
  count isRequestDevice (calls (snd s)) = 0 /\
  count isCreateBuffer (calls (snd s)) = 0 /\
  count isCreateRenderPipeline (calls (snd s)) = 0 /\
  count isRendering (calls (snd s)) = 0 /\
  buffers (snd s) = [] /\
  clickListeners (snd s) = 0 /\
  animationFrames (snd s) = 0.
Proof.
  intros He. cbn zeta.
  assert (Hs : supported e = false).
  { unfold supported. destruct He as [-> | ->]; [reflexivity|].
    now rewrite andb_false_r. }
  destruct (run_unsupported (A := A) e events Hs) as [-> _].
  unfold boot, main, initWebGPU, bind. cbn [env fresh].
  destruct (navigator_gpu e) eqn:Hg.
  - destruct He as [He | He]; [discriminate|].
    rewrite (setup_no_adapter e He). cbn [fst snd calls buffers clickListeners
                                          animationFrames ret].
    repeat split; try reflexivity; cbn; lia.
  - cbn. repeat split; try reflexivity; lia.
Qed.

(** A browser without WebGPU, and one whose [requestAdapter] gives [null]. *)
Lemma unsupported_platform_stops_twice :
  let noGPU := {| navigator_gpu := false; adapterAvailable := false;
                  deviceAvailable := false; preferredCanvasFormat := "" |} in
  let noAdapter := {| navigator_gpu := true; adapterAvailable := false;
                      deviceAvailable := false; preferredCanvasFormat := "" |} in
  (navigator_gpu noGPU = false /\
   count isConsoleError
     (calls (snd (run Exact.Real noGPU [Click; AnimationFrame]))) = 1) /\
  (adapterAvailable noAdapter = false /\
   count isConsoleError
     (calls (snd (run Exact.Real noAdapter [AnimationFrame; Click]))) = 1).
Proof.
  intros noGPU noAdapter. split; (split; [reflexivity|]).
  - destruct (unsupported_platform_stops Exact.Real noGPU
                [Click; AnimationFrame] (or_introl eq_refl))
      as (_ & _ & H & _).
    exact H.
  - destruct (unsupported_platform_stops Exact.Real noAdapter
                [AnimationFrame; Click] (or_intror eq_refl))
      as (_ & _ & H & _).
    exact H.
Defined.

(** In every arithmetic the matrices written to the uniform buffer are the
    ones for the angles after one, two, three, ... steps, in this order. *)
Lemma uploads_of_run (A : Arith) (e : Env) (events : list Event) :
  let written := uploads (calls (snd (run A e events))) in
  if supported e
  then exists k, written = map (fun i => transform (angleAfter i)) (seq 1 (S k))
  else written = [].
Proof.
  cbn zeta. destruct (supported e) eqn:Hs.
  - destruct (run_Running (A := A) e events Hs) as (app & h & -> & HR).
    destruct (running_uploads _ _ _ _ HR) as (k & Hk & _). eauto.
  - destruct (run_unsupported (A := A) e events Hs) as [-> _].
    unfold boot, main, initWebGPU, bind. cbn [env fresh].
    destruct (navigator_gpu e) eqn:H1; [| reflexivity].
    destruct (adapterAvailable e) eqn:H2.
    + destruct (deviceAvailable e) eqn:H3.
      * unfold supported in Hs. rewrite H1, H2, H3 in Hs. discriminate.
      * now rewrite (setup_no_device e H2 H3).
    + now rewrite (setup_no_adapter e H2).
Qed.

Lemma sampled_sin_vanishes_at_zero_only : sineVanishesAtZeroOnly sampled_sin.
Proof.
  split; [reflexivity|].
  intros x Hlow _. unfold sampled_sin.
  assert (Hx : (x =? 0)%float = false).
  { rewrite FloatAxioms.leb_spec in Hlow. rewrite FloatAxioms.eqb_spec.
    destruct (Prim2SF x) as [[] | [] | | [] m e];
      try reflexivity; vm_compute in Hlow; discriminate Hlow. }
  rewrite Hx.
  destruct (x =? 0.01)%float; [reflexivity|].
  destruct (x =? 0.02)%float; reflexivity.
Qed.

(** C9.  On the numbers the script computes with: in every execution the
    first matrix written to the uniform buffer, if there is one, is the
    matrix for the angle 0.01 (the angle is incremented before the matrix
    is computed), and every matrix written is the matrix for an angle
    above zero, from 2^-7 to 2^47.  So, for a [Math.sin] that is zero at 0
    and does not round to zero at the angles of that range, no matrix
    written is the matrix for the angle 0, and none is the identity
    matrix: its entry in row 0 of column 1, the sine as stored, is not
    zero. *)
Theorem first_upload_is_one_step_ahead
  (cos sin : float -> float) (e : Env) (events : list Event) :
  sineVanishesAtZeroOnly sin ->
  let A := Binary64.JS cos sin in
  let written := uploads (calls (snd (run A e events))) in
  hd_error written
  = (if supported e then Some (transform (A := A) 0.01%float) else None) /\
  Forall
    (fun m =>
       (exists x : float,
          m = transform (A := A) x /\
          Binary64.positive_float x /\
          (0.0078125 <=? x)%float = true /\
          (x <=? 140737488355328)%float = true /\
          x <> 0%float /\ x <> (-0)%float /\ x <> nan) /\
       (entry (A := A) m 0 1 =? 0)%float = false /\
       m <> transform (A := A) 0%float /\
       m <> identityMatrix (A := A))
    written.
Proof.
  intros [H0 Hnz]. cbn zeta.
  pose proof (uploads_of_run (Binary64.JS cos sin) e events) as H.
  cbn zeta in H. destruct (supported e).
  - destruct H as (k & ->). split; [reflexivity|].
    apply Forall_forall. intros m Hm.
    apply in_map_iff in Hm as (i & <- & Hi). apply in_seq in Hi.
    destruct i as [|i]; [lia|].
    pose proof (Rounding.angleAfter_positive cos sin i) as Hp.
    pose proof (Rounding.at_least_2pm7_leb _ (Rounding.angleAfter_low cos sin i))
      as Hlow.
    pose proof (Rounding.bounded_angle_leb _
                  (Rounding.angleAfter_bounded cos sin (S i))) as Hhigh.
    set (x := angleAfter (A := Binary64.JS cos sin) (S i)) in *.
    assert (He : (entry (A := Binary64.JS cos sin) (transform x) 0 1 =? 0)%float
                 = false) by exact (Hnz x Hlow Hhigh).
    split; [| split; [exact He | split]].
    + exists x. split; [reflexivity|].
      split; [exact Hp|]. split; [exact Hlow|]. split; [exact Hhigh|].
      apply Rounding.positive_float_not_zero, Hp.
    + intros Heq. rewrite Heq in He.
      change (entry (transform (A := Binary64.JS cos sin) 0%float) 0 1)
        with (Binary64.Math_fround (sin 0%float)) in He.
      rewrite H0 in He. vm_compute in He. discriminate He.
    + intros Heq. rewrite Heq in He. vm_compute in He. discriminate He.
  - rewrite H. split; [reflexivity | constructor].
Qed.

Lemma first_upload_is_one_step_ahead_sampled :
  let A := Binary64.JS sampled_cos sampled_sin in
  let written :=
    uploads (calls (snd (run A webgpuBrowser
                           [AnimationFrame; Click; AnimationFrame]))) in
  hd_error written = Some (transform (A := A) 0.01%float) /\
  Forall
    (fun m =>
       (exists x : float,
          m = transform (A := A) x /\
          Binary64.positive_float x /\
          (0.0078125 <=? x)%float = true /\
          (x <=? 140737488355328)%float = true /\
          x <> 0%float /\ x <> (-0)%float /\ x <> nan) /\
       (entry (A := A) m 0 1 =? 0)%float = false /\
       m <> transform (A := A) 0%float /\
       m <> identityMatrix (A := A))
    written.
Proof.
  exact (first_upload_is_one_step_ahead sampled_cos sampled_sin webgpuBrowser
           [AnimationFrame; Click; AnimationFrame]
           sampled_sin_vanishes_at_zero_only).
Defined.

(** * Whole executions

    Properties of every execution of the script, beyond those above. *)

Section Traces.

Context {A : Arith}.

Lemma count_rendering (p : Call A -> bool) (l : list (Call A)) :
  (forall c, isRendering c = true -> p c = false) ->
  forallb isRendering l = true -> count p l = 0.
Proof.
  intros Hp Hl. unfold count. induction l as [|c l IH]; [reflexivity|].
  cbn [forallb] in Hl. apply andb_prop in Hl as [Hc Hl].
  cbn [filter]. rewrite (Hp c Hc). auto.
Qed.

Lemma draws_app (l l' : list (Call A)) : draws (l ++ l') = draws l ++ draws l'.
Proof.
  induction l as [|c l IH]; [reflexivity|].
  destruct c; cbn [draws List.app]; rewrite IH; reflexivity.
Qed.

Lemma pipelines_app (l l' : list (Call A)) :
  pipelines (l ++ l') = pipelines l ++ pipelines l'.
Proof.
  induction l as [|c l IH]; [reflexivity|].
  destruct c; cbn [pipelines List.app]; rewrite IH; reflexivity.
Qed.

Lemma configurations_app (l l' : list (Call A)) :
  configurations (l ++ l') = configurations l ++ configurations l'.
Proof.
  induction l as [|c l IH]; [reflexivity|].
  destruct c; cbn [configurations List.app]; rewrite IH; reflexivity.
Qed.

(** The three ways in which the script gives up. *)
Lemma boot_unsupported (e : Env) :
  supported e = false ->
  exists l,
    boot A e =
      (None, {| env := e; calls := l; buffers := []; clickListeners := 0;
                animationFrames := 0 |}) /\
    (l = [ console_error "WebGPU is not supported on this browser." ] \/
     l = [ getElementById "gpuCanvas";
           requestAdapter "high-performance";
           console_error "WebGPU adapter not available. Your hardware or browser may not support WebGPU." ] \/
     l = [ getElementById "gpuCanvas";
           requestAdapter "high-performance";
           requestDevice;
           console_error "Failed to create WebGPU device." ]).
Proof.
  intros Hs. unfold boot, main, initWebGPU, bind. cbn [env fresh].
  destruct (navigator_gpu e) eqn:H1.
  - destruct (adapterAvailable e) eqn:H2.
    + destruct (deviceAvailable e) eqn:H3.
      * unfold supported in Hs. rewrite H1, H2, H3 in Hs. discriminate.
      * rewrite (setup_no_device e H2 H3).
        eexists. split; [reflexivity | auto].
    + rewrite (setup_no_adapter e H2).
      eexists. split; [reflexivity | auto].
  - eexists. split; [reflexivity | auto].
Qed.

(** Induction over the executions on a supporting environment. *)
Lemma run_invariant (e : Env)
  (P : list Event -> App A -> Host A -> Prop) :
  supported e = true ->
  P [] (fst (frame startApp (startHost e))) (snd (frame startApp (startHost e))) ->
  (forall events app h,
     Running e events app h -> P events app h ->
     P (events ++ [Click]) (onClick app) h) ->
  (forall events app h,
     Running e events app h -> P events app h ->
     P (events ++ [AnimationFrame])
       (fst (frame app (setAnimationFrames 0 h)))
       (snd (frame app (setAnimationFrames 0 h)))) ->
  forall events,
    exists app h,
      run A e events = (Some app, h) /\ Running e events app h /\
      P events app h.
Proof.
  intros Hs H0 HC HF events.
  induction events as [|ev events IH] using rev_ind.
  - destruct (Running_boot (A := A) e Hs) as (app & h & Hb & HR).
    exists app, h. split; [exact Hb | split; [exact HR|]].
    rewrite (boot_supported e Hs) in Hb.
    destruct (frame startApp (startHost e)) as [app0 h0].
    inversion Hb; subst. exact H0.
  - destruct IH as (app & h & Hrun & HR & HP). rewrite run_snoc, Hrun.
    destruct ev; cbn [dispatch].
    + rewrite (running_clickListeners _ _ _ _ HR). cbn [Nat.iter nat_rect].
      eexists _, _. split; [reflexivity|].
      split; [now apply Running_Click | now apply HC].
    + rewrite (running_animationFrames _ _ _ _ HR).
      destruct (Running_AnimationFrame _ _ _ _ HR) as (app' & h' & Hf & HR').
      specialize (HF _ _ _ HR HP). rewrite Hf in *.
      eexists _, _. split; [reflexivity|]. split; assumption.
Qed.

Lemma tally_snoc_Click (events : list Event) :
  tally (events ++ [Click]) = (negb (fst (tally events)), snd (tally events)).
Proof.
  unfold tally. rewrite fold_left_app. cbn [fold_left].
  now destruct (fold_left _ events (true, 0)).
Qed.

Lemma tally_snoc_AnimationFrame (events : list Event) :
  tally (events ++ [AnimationFrame])
  = (fst (tally events),
     if fst (tally events) then S (snd (tally events)) else snd (tally events)).
Proof.
  unfold tally. rewrite fold_left_app. cbn [fold_left].
  now destruct (fold_left _ events (true, 0)).
Qed.

(** The calls of one frame, from the state in which it is called. *)
Lemma frame_calls (app : App A) (h : Host A) :
  calls (snd (frame app h)) =
    calls h ++
    (if isRotating app
     then writeBuffer (uniformBuffer app) 0
            (transform (nextAngle (rotationAngle app)))
          :: renderCalls app (S (List.length (calls h)))
     else renderCalls app (List.length (calls h))).
Proof.
  destruct (isRotating app) eqn:Hr.
  - now rewrite (frame_rotating app h Hr).
  - now rewrite (frame_paused app h Hr).
Qed.

Lemma frame_rotationAngle (app : App A) (h : Host A) :
  rotationAngle (fst (frame app h))
  = if isRotating app then nextAngle (rotationAngle app) else rotationAngle app.
Proof.
  destruct (isRotating app) eqn:Hr.
  - now rewrite (frame_rotating app h Hr).
  - now rewrite (frame_paused app h Hr).
Qed.

End Traces.

Section Resolution.

Context {A : Arith}.

Lemma allResolved_app (l l' : list (Call A)) : forall before,
  allResolved before (l ++ l')
  = allResolved before l && allResolved (before ++ l) l'.
Proof.
  induction l as [|c l IH]; intros before.
  - cbn [List.app allResolved andb]. now rewrite app_nil_r.
  - cbn [List.app allResolved]. rewrite IH, <- app_assoc, andb_assoc.
    reflexivity.
Qed.

Lemma creates_app_r (p : Call A -> bool) (l l' : list (Call A)) (i : nat) :
  creates p (l ++ l') (List.length l + i) = creates p l' i.
Proof.
  unfold creates. rewrite nth_error_app2 by lia.
  now replace (List.length l + i - List.length l) with i by lia.
Qed.

Lemma creates_app_l (p : Call A -> bool) (l l' : list (Call A)) (i : nat) :
  creates p l i = true -> creates p (l ++ l') i = true.
Proof.
  unfold creates. destruct (nth_error l i) eqn:Hi; [| discriminate].
  rewrite nth_error_app1 by (apply nth_error_Some; congruence).
  now rewrite Hi.
Qed.

Lemma isBuffer_app (l l' : list (Call A)) (i : nat) :
  i < count isCreateBuffer l ->
  Nat.ltb i (count isCreateBuffer (l ++ l')) = true.
Proof. intros Hi. apply Nat.ltb_lt. rewrite count_app. lia. Qed.

(** The render pass of a frame names only objects that exist when it is
    recorded, the view and the command buffer being the ones of this
    frame. *)
Lemma allResolved_renderCalls (app : App A) (before : list (Call A)) :
  creates isCreateRenderPipeline before (pipeline app) = true ->
  creates isCreateBindGroup before (bindGroup app) = true ->
  vertexBuffer app < count isCreateBuffer before ->
  allResolved before (renderCalls app (List.length before)) = true.
Proof.
  intros Hp Hg Hv. unfold renderCalls.
  cbn [allResolved resolved view forallb].
  repeat rewrite <- app_assoc. cbn [List.app].
  replace (S (List.length before)) with (List.length before + 1) by lia.
  rewrite <- (Nat.add_0_r (List.length before)) at 1.
  rewrite !creates_app_r, !(creates_app_l _ _ _ _ Hp), !(creates_app_l _ _ _ _ Hg).
  rewrite !(isBuffer_app _ _ _ Hv).
  reflexivity.
Qed.

End Resolution.

(** ** Failure to get a device *)

(** X1.  When [navigator.gpu] and an adapter are there but
    [requestDevice] yields no device, the script has looked up the canvas,
    requested the adapter and the device, reported "Failed to create WebGPU
    device." and stopped: it has created no buffer, registered no listener
    and requested no animation frame, and whatever events follow, the state
    stays this one. *)
Theorem device_failure_stops (A : Arith) (e : Env) (events : list Event) :
  navigator_gpu e = true ->
  adapterAvailable e = true ->
  deviceAvailable e = false ->
  run A e events =
    (None,
     {| env := e;
        calls := [ getElementById "gpuCanvas";
                   requestAdapter "high-performance";
                   requestDevice;
                   console_error "Failed to create WebGPU device." ];
        buffers := []; clickListeners := 0; animationFrames := 0 |}).
Proof.
  intros H1 H2 H3.
  assert (Hs : supported e = false)
    by (unfold supported; now rewrite H1, H2, H3).
  destruct (run_unsupported (A := A) e events Hs) as [-> _].
  unfold boot, main, initWebGPU, bind. cbn [env fresh]. rewrite H1.
  now rewrite (setup_no_device e H2 H3).
Qed.

Lemma device_failure_stops_after_events :
  let e := {| navigator_gpu := true; adapterAvailable := true;
              deviceAvailable := false;
              preferredCanvasFormat := "bgra8unorm" |} in
  run Exact.Real e [AnimationFrame; Click; AnimationFrame] =
    (None,
     {| env := e;
        calls := [ getElementById "gpuCanvas";
                   requestAdapter "high-performance";
                   requestDevice;
                   console_error "Failed to create WebGPU device." ];
        buffers := []; clickListeners := 0; animationFrames := 0 |}).
Proof.
  cbn zeta. apply device_failure_stops; reflexivity.
Defined.

(** X2.  The three results that the script tests for.  When
    [navigator.gpu] is missing, or [requestAdapter] yields no adapter, or
    [requestDevice] yields no device, the script has reported exactly one
    error on the console, as the last call it ever makes whatever events
    follow; it is not running, and no call of a frame is made.  When all
    three are there and [initWebGPU] runs to its end, no error is ever
    reported.  (A request that is rejected, or a page without the canvas,
    is not among the environments that [Env] describes.) *)
Theorem console_error_on_falsy_result
  (A : Arith) (e : Env) (events : list Event) :
  let s := run A e events in
  (navigator_gpu e = false \/ adapterAvailable e = false \/
   deviceAvailable e = false ->
   count isConsoleError (calls (snd s)) = 1 /\
   isConsoleError (last (calls (snd s)) getCurrentTexture) = true /\
   fst s = None /\
   count isRendering (calls (snd s)) = 0) /\
  (navigator_gpu e = true -> adapterAvailable e = true ->
   deviceAvailable e = true ->
   count isConsoleError (calls (snd s)) = 0).
Proof.
  cbn zeta. split.
  - intros He.
    assert (Hs : supported e = false).
    { unfold supported. destruct He as [-> | [-> | ->]]; [reflexivity | |].
      - now rewrite andb_false_r.
      - now rewrite andb_false_r. }
    destruct (run_unsupported (A := A) e events Hs) as [-> _].
    destruct (boot_unsupported (A := A) e Hs) as (l & -> & [-> | [-> | ->]]);
      repeat split.
  - intros H1 H2 H3.
    assert (Hs : supported e = true)
      by (unfold supported; now rewrite H1, H2, H3).
    destruct (run_Running (A := A) e events Hs) as (app & h & -> & HR).
    cbn [snd].
    destruct (running_calls _ _ _ _ HR) as (rendering & -> & Hrd & _).
    rewrite count_app, (count_rendering isConsoleError rendering); auto.
    intros c. now destruct c.
Qed.

(** ** Clicks *)

(** X3.  Two clicks in a row cancel out: the listener applied twice gives
    back the variables it was given, and an execution in which two
    consecutive clicks are delivered ends in the same state, of the script
    and of the host, as the execution without them. *)
Theorem double_click_is_no_op
  (A : Arith) (e : Env) (events rest : list Event) :
  (forall app : App A, onClick (onClick app) = app) /\
  run A e (events ++ Click :: Click :: rest) = run A e (events ++ rest).
Proof.
  assert (Hc : forall app : App A, onClick (onClick app) = app).
  { intros []. unfold onClick. cbn. now rewrite negb_involutive. }
  split; [exact Hc|].
  unfold run. rewrite !fold_left_app. cbn [fold_left]. f_equal.
  fold (run A e events).
  destruct (run A e events) as [[app|] h] eqn:Hrun; [| reflexivity].
  destruct (run_Some _ _ _ _ _ Hrun) as [_ HR].
  cbn [dispatch]. rewrite (running_clickListeners _ _ _ _ HR).
  cbn [Nat.iter nat_rect]. now rewrite Hc.
Qed.

(** ** Frames *)

(** X4.  No frame is skipped and none is drawn twice: in an execution on a
    supporting environment the number of draw calls, each of 3 vertices,
    is one (the frame that [initWebGPU] starts) plus the number of
    animation frames delivered, and so is the number of textures acquired,
    of submissions and of calls of [requestAnimationFrame]; exactly one
    callback is pending afterwards.  On any other environment there is
    none of them. *)
Theorem frames_are_counted (A : Arith) (e : Env) (events : list Event) :
  let h := snd (run A e events) in
  let n := if supported e then S (count isAnimationFrame events) else 0 in
  draws (calls h) = repeat 3%N n /\
  count isGetCurrentTexture (calls h) = n /\
  count isSubmit (calls h) = n /\
  count isRequestAnimationFrame (calls h) = n /\
  animationFrames h = (if supported e then 1 else 0).
Proof.
  cbn zeta. destruct (supported e) eqn:Hs.
  - destruct (run_invariant (A := A) e
                (fun events _ h =>
                   let n := S (count isAnimationFrame events) in
                   draws (calls h) = repeat 3%N n /\
                   count isGetCurrentTexture (calls h) = n /\
                   count isSubmit (calls h) = n /\
                   count isRequestAnimationFrame (calls h) = n) Hs)
      with (events := events) as (app & h & -> & HR & HP).
    + rewrite frame_calls. repeat split.
    + intros evs app h _ HP. cbn zeta in *.
      unfold count in *. rewrite filter_app, length_app. cbn.
      now rewrite Nat.add_0_r.
    + intros evs app h _ (Hd & Ht & Hsu & Hr). cbn zeta.
      rewrite frame_calls. cbn [calls setAnimationFrames].
      rewrite draws_app, !count_app, Hd, Ht, Hsu, Hr.
      replace (count isAnimationFrame [AnimationFrame]) with 1 by reflexivity.
      rewrite Nat.add_1_r.
      change (repeat 3%N (S (S (count isAnimationFrame evs))))
        with (3%N :: repeat 3%N (S (count isAnimationFrame evs))).
      rewrite repeat_cons.
      destruct (isRotating app); cbn [draws renderCalls];
        repeat split; cbn; lia.
    + cbn [snd]. cbn zeta in HP. destruct HP as (Hd & Ht & Hsu & Hr).
      repeat split; try assumption. apply (running_animationFrames _ _ _ _ HR).
  - destruct (run_unsupported (A := A) e events Hs) as [-> _].
    destruct (boot_unsupported (A := A) e Hs) as (l & -> & [-> | [-> | ->]]);
      repeat split.
Qed.

(** X5.  The state of the script is a function of the events delivered.
    Let [tally events] be the pair of the flag obtained by negating [true]
    at every click and of the number of animation frames that came while
    that flag was [true].  Then, in every execution on a supporting
    environment, [isRotating] is that flag, the angle is the step added to
    0 once for the first frame and once more for each of these animation
    frames, and the matrices written to the uniform buffer are those of
    the angles after 1, 2, ... up to that many additions.  On any other
    environment there is no state and nothing is written. *)
Theorem state_follows_history (A : Arith) (e : Env) (events : list Event) :
  let s := run A e events in
  let rotating := fst (tally events) in
  let k := snd (tally events) in
  option_map isRotating (fst s)
  = (if supported e then Some rotating else None) /\
  angleOf s = (if supported e then Some (angleAfter (S k)) else None) /\
  uploads (calls (snd s))
  = (if supported e
     then map (fun i => transform (angleAfter i)) (seq 1 (S k))
     else []).
Proof.
  cbn zeta. destruct (supported e) eqn:Hs.
  - destruct (run_invariant (A := A) e
                (fun events app h =>
                   isRotating app = fst (tally events) /\
                   rotationAngle app = angleAfter (S (snd (tally events))) /\
                   uploads (calls h)
                   = map (fun i => transform (angleAfter i))
                       (seq 1 (S (snd (tally events))))) Hs)
      with (events := events) as (app & h & -> & _ & Hr & Ha & Hu).
    + rewrite frame_isRotating, frame_rotationAngle, frame_calls.
      repeat split.
    + intros evs app h _ (Hr & Ha & Hu).
      rewrite tally_snoc_Click. cbn [fst snd].
      unfold onClick. cbn [isRotating rotationAngle setIsRotating].
      now rewrite Hr.
    + intros evs app h _ (Hr & Ha & Hu).
      rewrite tally_snoc_AnimationFrame. cbn [fst snd].
      rewrite frame_isRotating, frame_rotationAngle, frame_calls.
      cbn [calls setAnimationFrames]. rewrite uploads_app, Hu, Hr, Ha.
      destruct (fst (tally evs)).
      * repeat split.
        cbn [uploads]. rewrite uploads_renderCalls.
        rewrite (seq_S (S (snd (tally evs))) 1), map_app. reflexivity.
      * rewrite uploads_renderCalls, app_nil_r. repeat split.
    + unfold angleOf. cbn [fst snd option_map]. now rewrite Hr, Ha, Hu.
  - destruct (run_unsupported (A := A) e events Hs) as [-> _].
    destruct (boot_unsupported (A := A) e Hs) as (l & -> & [-> | [-> | ->]]);
      repeat split.
Qed.

(** X6.  The uniform buffer is never stale: in whatever state the script
    is running, after any events, the uniform buffer holds the matrix of
    the current angle in its first 64 bytes (zeros after them), and that
    matrix is the last one written. *)
Theorem uniform_buffer_is_current
  (A : Arith) (e : Env) (events : list Event) (app : App A) (h : Host A) :
  run A e events = (Some app, h) ->
  option_map contents (nth_error (buffers h) (uniformBuffer app))
  = Some (createTransformationMatrix (rotationAngle app) (lit 0) (lit 0)
          ++ repeat (lit 0) 48) /\
  last (uploads (calls h)) []
  = createTransformationMatrix (rotationAngle app) (lit 0) (lit 0).
Proof.
  intros Hrun. destruct (run_Some _ _ _ _ _ Hrun) as [_ HR].
  rewrite (running_buffers _ _ _ _ HR), (running_uniformBuffer _ _ _ _ HR).
  split; [reflexivity|].
  destruct (running_uploads _ _ _ _ HR) as (k & -> & ->).
  rewrite (seq_S k 1), map_app. cbn [map Nat.add]. apply last_last.
Qed.

Lemma uniform_buffer_is_current_after_events :
  exists (app : App Exact.Real) (h : Host Exact.Real),
    run Exact.Real webgpuBrowser [AnimationFrame; Click; AnimationFrame]
    = (Some app, h) /\
    option_map contents (nth_error (buffers h) (uniformBuffer app))
    = Some (createTransformationMatrix (rotationAngle app) (lit 0) (lit 0)
            ++ repeat (lit 0) 48) /\
    last (uploads (calls h)) []
    = createTransformationMatrix (rotationAngle app) (lit 0) (lit 0).
Proof.
  destruct (run_Running (A := Exact.Real) webgpuBrowser
              [AnimationFrame; Click; AnimationFrame] eq_refl)
    as (app & h & Hrun & _).
  exists app, h. split; [exact Hrun|].
  apply (uniform_buffer_is_current Exact.Real webgpuBrowser
           [AnimationFrame; Click; AnimationFrame] app h Hrun).
Defined.

(** X7.  Every call that moves data or draws has the shape the script
    gives it, in every execution: a write goes to buffer 1, the uniform
    buffer, at offset 0 with 16 floats, and a draw is of 3 vertices and 1
    instance from vertex 0.  So every write is one the buffer allows: the
    buffer exists, was created with the usage [COPY_DST], the offset is a
    multiple of 4, and the 64 bytes written end within the 256 bytes of
    the buffer. *)
Theorem uploads_fit_the_uniform_buffer
  (A : Arith) (e : Env) (events : list Event) :
  let h := snd (run A e events) in
  forallb wellFormed (calls h) = true /\
  (forall (buffer : nat) (bufferOffset : N) (data : list A),
     In (writeBuffer buffer bufferOffset data) (calls h) ->
     exists x,
       nth_error (buffers h) buffer = Some x /\
       N.land (usage (descriptor x)) GPUBufferUsage_COPY_DST
       = GPUBufferUsage_COPY_DST /\
       (bufferOffset mod 4 = 0)%N /\
       (bufferOffset + byteLength data <= size (descriptor x))%N).
Proof.
  cbn zeta. destruct (supported e) eqn:Hs.
  - destruct (run_invariant (A := A) e
                (fun _ _ h => forallb wellFormed (calls h) = true) Hs)
      with (events := events) as (app & h & -> & HR & Hw).
    + rewrite frame_calls. reflexivity.
    + auto.
    + intros evs app h HR Hw. rewrite frame_calls.
      cbn [calls setAnimationFrames]. rewrite forallb_app, Hw.
      rewrite (running_uniformBuffer _ _ _ _ HR).
      destruct (isRotating app); reflexivity.
    + cbn [snd]. split; [exact Hw|].
      intros buffer bufferOffset data Hin.
      rewrite forallb_forall in Hw. specialize (Hw _ Hin).
      cbn [wellFormed] in Hw.
      apply andb_prop in Hw as [Hw Hl]. apply andb_prop in Hw as [Hb Ho].
      apply Nat.eqb_eq in Hb, Hl. apply N.eqb_eq in Ho. subst.
      rewrite (running_buffers _ _ _ _ HR). eexists. split; [reflexivity|].
      unfold byteLength. rewrite Hl. repeat split. cbn. lia.
  - destruct (run_unsupported (A := A) e events Hs) as [-> _].
    destruct (boot_unsupported (A := A) e Hs) as (l & -> & [-> | [-> | ->]]);
      (split; [reflexivity|]); intros buffer bufferOffset data Hin;
      cbn in Hin; repeat destruct Hin as [Hin | Hin]; try discriminate;
      contradiction.
Qed.

(** X8.  The script never names an object before it exists: in every
    execution, each call that takes a shader module, a pipeline, a bind
    group layout, a bind group, a buffer, a texture, a texture view or a
    command buffer is preceded in the trace by the call that created that
    object, and that call is of the right kind.  In particular every render
    pass begins with a view assigned, the descriptor's [view] being filled
    in by each frame before the pass. *)
Theorem objects_exist_when_used (A : Arith) (e : Env) (events : list Event) :
  allResolved [] (calls (snd (run A e events))) = true.
Proof.
  destruct (supported e) eqn:Hs.
  - destruct (run_invariant (A := A) e
                (fun _ _ h => allResolved [] (calls h) = true) Hs)
      with (events := events) as (app & h & -> & HR & Hw).
    + rewrite frame_calls. reflexivity.
    + auto.
    + intros evs app h HR Hw. rewrite frame_calls.
      cbn [calls setAnimationFrames]. rewrite allResolved_app, Hw.
      cbn [andb List.app].
      destruct (running_calls _ _ _ _ HR) as (rendering & Hc & _).
      assert (Hp : creates isCreateRenderPipeline (calls h) (pipeline app) = true).
      { rewrite Hc, (running_pipeline _ _ _ _ HR).
        now apply creates_app_l. }
      assert (Hg : creates isCreateBindGroup (calls h) (bindGroup app) = true).
      { rewrite Hc, (running_bindGroup _ _ _ _ HR).
        now apply creates_app_l. }
      assert (Hn : 2 <= count isCreateBuffer (calls h)).
      { rewrite Hc, count_app.
        change (count isCreateBuffer (setupCalls (preferredCanvasFormat e)))
          with 2. lia. }
      destruct (isRotating app).
      * cbn [allResolved resolved].
        rewrite (running_uniformBuffer _ _ _ _ HR).
        apply Nat.ltb_lt in Hn as Hu. rewrite Hu. cbn [andb].
        replace (S (List.length (calls h)))
          with (List.length
                  (calls h ++
                   [writeBuffer 1 0 (transform (nextAngle (rotationAngle app)))]))
          by (rewrite length_app; cbn; lia).
        apply allResolved_renderCalls.
        -- now apply creates_app_l.
        -- now apply creates_app_l.
        -- rewrite count_app, (running_vertexBuffer _ _ _ _ HR). lia.
      * apply allResolved_renderCalls; try assumption.
        rewrite (running_vertexBuffer _ _ _ _ HR). lia.
    + exact Hw.
  - destruct (run_unsupported (A := A) e events Hs) as [-> _].
    destruct (boot_unsupported (A := A) e Hs) as (l & -> & [-> | [-> | ->]]);
      reflexivity.
Qed.

(** ** The vertex buffer and the pipeline *)

Section Layout.

Context {A : Arith}.

Lemma firstn_add_skipn (n m : nat) : forall l : list A,
  firstn (n + m) l = firstn n l ++ firstn m (skipn n l).
Proof.
  induction n as [|n IH]; intros l; [reflexivity|].
  destruct l as [|x l]; cbn [Nat.add firstn skipn List.app].
  - now rewrite firstn_nil.
  - now rewrite IH.
Qed.

Lemma concat_strides (l : list A) (n : nat) :
  List.concat (map (fun i => firstn 5 (skipn (5 * i) l)) (seq 0 n))
  = firstn (5 * n) l.
Proof.
  induction n as [|n IH]; [reflexivity|].
  rewrite (seq_S n 0), map_app, concat_app, IH. cbn [map List.concat Nat.add].
  rewrite app_nil_r.
  replace (5 * S n) with (5 * n + 5) by lia.
  now rewrite firstn_add_skipn.
Qed.

(** An attribute of [w] floats that starts [o] floats into the vertex, in
    a buffer of [n] vertices of 5 floats. *)
Lemma fetchAttribute_stride (data : list A) (n i o w : nat)
  (attr : GPUVertexAttribute) :
  List.length data = 5 * n ->
  vertexFormatSize (format attr) = Some (4 * N.of_nat w)%N ->
  offset attr = (4 * N.of_nat o)%N ->
  o + w <= 5 -> 0 < w ->
  fetchAttribute data vertexBufferLayout attr i
  = if Nat.ltb i n then Some (firstn w (skipn (5 * i + o) data)) else None.
Proof.
  intros Hl Hf Ho Hw Hw0. unfold fetchAttribute. rewrite Hf, Ho.
  unfold byteLength, vertexBufferLayout, BYTES_PER_ELEMENT.
  cbn [arrayStride]. rewrite Hl.
  destruct (Nat.ltb i n) eqn:Hi.
  - apply Nat.ltb_lt in Hi.
    assert (Hle : (N.of_nat i * (5 * 4) + 4 * N.of_nat o + 4 * N.of_nat w
                   <=? 4 * N.of_nat (5 * n))%N = true)
      by (apply N.leb_le; lia).
    rewrite Hle.
    replace (4 * N.of_nat w)%N with (N.of_nat w * 4)%N by lia.
    replace (N.of_nat i * (5 * 4) + 4 * N.of_nat o)%N
      with (N.of_nat (5 * i + o) * 4)%N by lia.
    rewrite !N.div_mul by discriminate. now rewrite !Nat2N.id.
  - apply Nat.ltb_ge in Hi.
    assert (Hgt : (N.of_nat i * (5 * 4) + 4 * N.of_nat o + 4 * N.of_nat w
                   <=? 4 * N.of_nat (5 * n))%N = false)
      by (apply N.leb_gt; lia).
    now rewrite Hgt.
Qed.

Lemma fetchVertex_stride (data : list A) (n i : nat) :
  List.length data = 5 * n ->
  fetchVertex data vertexBufferLayout i
  = if Nat.ltb i n
    then [ Some (firstn 2 (skipn (5 * i) data));
           Some (firstn 3 (skipn (5 * i + 2) data)) ]
    else [None; None].
Proof.
  intros Hl. unfold fetchVertex. cbn [attributes vertexBufferLayout map].
  rewrite (fetchAttribute_stride data n i 0 2) by (auto; lia).
  rewrite (fetchAttribute_stride data n i 2 3) by (auto; lia).
  rewrite Nat.add_0_r. now destruct (Nat.ltb i n).
Qed.

Lemma rendering_creates_nothing (l : list (Call A)) :
  forallb isRendering l = true -> pipelines l = [] /\ configurations l = [].
Proof.
  induction l as [|c l IH]; [auto|].
  cbn [forallb]. intros H. apply andb_prop in H as [Hc Hl].
  destruct (IH Hl) as [Hp Hcf].
  destruct c; try discriminate; cbn [pipelines configurations]; auto.
Qed.

End Layout.

(** X9.  The layout that the pipeline is given for the vertex buffer, a
    stride of 20 bytes with two floats at offset 0 and three floats at
    offset 8, cuts a buffer of [n] vertices of 5 floats into its vertices
    without gap or overlap: vertex [i < n] is read from the floats [5 i],
    [5 i + 1] (position) and [5 i + 2 .. 5 i + 4] (colour), the floats of
    the vertices 0 to [n - 1] put one after the other are the buffer, and
    no vertex from [n] on can be read.  The vertex data of the script is
    such a buffer with [n = 3], the number of vertices it draws. *)
Theorem vertex_layout_tiles_the_buffer (A : Arith) (data : list A) (n : nat) :
  List.length data = 5 * n ->
  (forall i, i < n ->
     fetchVertex data vertexBufferLayout i
     = [ Some (firstn 2 (skipn (5 * i) data));
         Some (firstn 3 (skipn (5 * i + 2) data)) ]) /\
  (forall i, n <= i -> fetchVertex data vertexBufferLayout i = [None; None]) /\
  List.concat
    (map (fun i =>
            match vertexFloats (fetchVertex data vertexBufferLayout i) with
            | Some l => l
            | None => []
            end)
       (seq 0 n))
  = data.
Proof.
  intros Hl. split; [| split].
  - intros i Hi. rewrite (fetchVertex_stride data n i Hl).
    apply Nat.ltb_lt in Hi. now rewrite Hi.
  - intros i Hi. rewrite (fetchVertex_stride data n i Hl).
    apply Nat.ltb_ge in Hi. now rewrite Hi.
  - rewrite (map_ext_in _ (fun i => firstn 5 (skipn (5 * i) data))).
    + rewrite concat_strides, <- Hl. apply firstn_all.
    + intros i Hi. apply in_seq in Hi.
      rewrite (fetchVertex_stride data n i Hl).
      assert (Hlt : (Nat.ltb i n) = true) by (apply Nat.ltb_lt; lia).
      rewrite Hlt. cbn [vertexFloats fold_right]. rewrite app_nil_r.
      rewrite (firstn_add_skipn 2 3), skipn_skipn.
      now rewrite (Nat.add_comm 2).
Qed.

Lemma vertex_layout_tiles_the_vertex_data :
  List.length (vertexData (A := Exact.Real)) = 5 * 3 /\
  (forall i, i < 3 ->
     fetchVertex (vertexData (A := Exact.Real)) vertexBufferLayout i
     = [ Some (firstn 2 (skipn (5 * i) vertexData));
         Some (firstn 3 (skipn (5 * i + 2) vertexData)) ]) /\
  (forall i, 3 <= i ->
     fetchVertex (vertexData (A := Exact.Real)) vertexBufferLayout i
     = [None; None]) /\
  List.concat
    (map (fun i =>
            match vertexFloats
                    (fetchVertex (vertexData (A := Exact.Real))
                       vertexBufferLayout i) with
            | Some l => l
            | None => []
            end)
       (seq 0 3))
  = vertexData.
Proof.
  split; [reflexivity|].
  apply (vertex_layout_tiles_the_buffer Exact.Real vertexData 3 eq_refl).
Defined.

(** X10.  How the pipeline is wired, in every execution on a supporting
    environment and whatever format the browser prefers: the canvas
    context is configured once, with the preferred format and the alpha
    mode "opaque", and the one pipeline created has that format as its
    only colour target, the layout above as its only vertex buffer, and
    for both stages the one shader module, which is created from
    [shaderCode]; its entry points, "vertexMain" and "fragmentMain", are
    functions declared in that code.  On any other environment nothing is
    configured and no pipeline is created. *)
Theorem pipeline_matches_canvas_and_shader
  (A : Arith) (e : Env) (events : list Event) :
  let h := snd (run A e events) in
  if supported e
  then
    configurations (calls h) = [(preferredCanvasFormat e, "opaque")] /\
    exists d,
      pipelines (calls h) = [d] /\
      fragment_targets d = [preferredCanvasFormat e] /\
      vertex_buffers d = [vertexBufferLayout] /\
      fragment_module d = vertex_module d /\
      nth_error (calls h) (vertex_module d) = Some (createShaderModule shaderCode) /\
      index 0 ("fn " ++ vertex_entryPoint d ++ "(") shaderCode <> None /\
      index 0 ("fn " ++ fragment_entryPoint d ++ "(") shaderCode <> None
  else configurations (calls h) = [] /\ pipelines (calls h) = [].
Proof.
  cbn zeta. destruct (supported e) eqn:Hs.
  - destruct (run_Running (A := A) e events Hs) as (app & h & -> & HR).
    cbn [snd].
    destruct (running_calls _ _ _ _ HR) as (rendering & -> & Hrd & _).
    destruct (rendering_creates_nothing rendering Hrd) as [Hp Hc].
    rewrite configurations_app, pipelines_app, Hp, Hc.
    split; [reflexivity|].
    eexists. split; [reflexivity|].
    repeat split; try discriminate.
  - destruct (run_unsupported (A := A) e events Hs) as [-> _].
    destruct (boot_unsupported (A := A) e Hs) as (l & -> & [-> | [-> | ->]]);
      split; reflexivity.
Qed.

(** * The shaders and the matrix, in arithmetic without rounding *)

Lemma Real_trig : ExactTrig Exact.Real.
Proof.
  constructor; cbn [Math_cos Math_sin add sub mul lit Exact.Real num].
  - rewrite Real_lit_0, Real_lit_1. apply cos_0.
  - rewrite Real_lit_0. apply sin_0.
  - intros x y. apply cos_plus.
  - intros x y. apply sin_plus.
Qed.

Section ExactShader.

Context {A : Arith} (HA : ExactArith A) (HT : ExactTrig A).

Add Ring exact_shader_ring : (exact_ring A HA).

Lemma vec4_eq (x y z w x' y' z' w' : A) :
  x = x' -> y = y' -> z = z' -> w = w' -> (x, y, z, w) = (x', y', z', w').
Proof. congruence. Qed.

(** The matrix applied to a vector. *)
Lemma mulMatVec_createTransformationMatrix (theta tx ty x y z w : A) :
  mulMatVec (createTransformationMatrix theta tx ty) (x, y, z, w)
  = (add (add (mul (Math_cos theta) x) (mul (Math_sin theta) y)) (mul tx w),
     add (sub (mul (Math_cos theta) y) (mul (Math_sin theta) x)) (mul ty w),
     z, w).
Proof.
  unfold createTransformationMatrix. rewrite (exact_Float32Array HA).
  unfold mulMatVec, entry. cbn [nth Nat.add Nat.mul].
  apply vec4_eq; ring.
Qed.

(** X11.  What the vertex shader does with the matrix of the script, in
    arithmetic without rounding: the vertex at [(x, y)] is put at
    [(cos t * x + sin t * y + tx, cos t * y - sin t * x + ty, 0, 1)] for
    the angle [t], that is turned by [t] towards the negative side
    (clockwise, the y axis of clip space pointing up) and then moved by
    [(tx, ty)]; its colour is handed on unchanged, and the fragment shader
    returns it with alpha 1.  With no translation, as in [frame], the
    vertex keeps its distance from the centre of the canvas. *)
Theorem vertexMain_turns_the_vertex (theta tx ty x y : A) (color : @vec3 A) :
  let out := vertexMain (createTransformationMatrix theta tx ty) (x, y) color in
  position out
  = (add (add (mul (Math_cos theta) x) (mul (Math_sin theta) y)) tx,
     add (sub (mul (Math_cos theta) y) (mul (Math_sin theta) x)) ty,
     lit 0, lit 1) /\
  fragmentMain (fragColor out)
  = (fst (fst color), snd (fst color), snd color, lit 1) /\
  (tx = lit 0 -> ty = lit 0 ->
   let x' := fst (fst (fst (position out))) in
   let y' := snd (fst (fst (position out))) in
   add (mul x' x') (mul y' y') = add (mul x x) (mul y y)).
Proof.
  cbn zeta. unfold vertexMain. cbn [fst snd].
  rewrite mulMatVec_createTransformationMatrix.
  cbn [position fragColor fst snd].
  split; [| split].
  - apply vec4_eq; try reflexivity; ring.
  - now destruct color as [[red green] blue].
  - intros -> ->.
    transitivity
      (mul (add (mul (Math_cos theta) (Math_cos theta))
              (mul (Math_sin theta) (Math_sin theta)))
         (add (mul x x) (mul y y))); [ring|].
    rewrite (exact_pythagoras A HA theta). ring.
Qed.

Lemma mulMatVec_transform_add (a b : A) (v : @vec4 A) :
  mulMatVec (transform (add a b)) v
  = mulMatVec (transform a) (mulMatVec (transform b) v).
Proof.
  destruct v as [[[x y] z] w]. unfold transform.
  rewrite !mulMatVec_createTransformationMatrix.
  rewrite (exact_cos_add A HT), (exact_sin_add A HT).
  apply vec4_eq; ring.
Qed.

Lemma mulMatVec_transform_0 (v : @vec4 A) :
  mulMatVec (transform (lit 0)) v = v.
Proof.
  destruct v as [[[x y] z] w]. unfold transform.
  rewrite mulMatVec_createTransformationMatrix.
  rewrite (exact_cos_0 A HT), (exact_sin_0 A HT).
  apply vec4_eq; ring.
Qed.

(** X12.  In arithmetic without rounding, and with cosine and sine that
    satisfy the addition formulas, the matrices of the script compose as
    the angles add: the matrix of [a + b] acts as the matrix of [b]
    followed by the matrix of [a], and the matrix of the angle 0 leaves
    every vector as it is.  So the matrix that the script writes after [k]
    rotating frames turns the triangle as [k] applications of the matrix
    of one step of 0.01 do: every rotating frame turns it by the same
    amount. *)
Theorem rotations_compose (a b : A) (k : nat) (v : @vec4 A) :
  mulMatVec (transform (add a b)) v
  = mulMatVec (transform a) (mulMatVec (transform b) v) /\
  mulMatVec (transform (lit 0)) v = v /\
  mulMatVec (transform (angleAfter k)) v
  = Nat.iter k (mulMatVec (transform (lit (1#100)))) v.
Proof.
  split; [apply mulMatVec_transform_add | split; [apply mulMatVec_transform_0|]].
  revert v. induction k as [|k IH]; intros v.
  - apply mulMatVec_transform_0.
  - rewrite Nat.iter_succ_r, <- IH.
    unfold angleAfter. rewrite Nat.iter_succ. unfold nextAngle at 1.
    apply mulMatVec_transform_add.
Qed.

End ExactShader.

Lemma vertexMain_turns_the_vertex_real :
  let A := Exact.Real in
  let out :=
    vertexMain (A := A)
      (createTransformationMatrix (lit 1) (lit 0) (lit 0))
      (lit 0, lit (6667#10000)) (lit 1, lit 0, lit 0) in
  position out
  = (add (add (mul (Math_cos (lit 1)) (lit 0))
            (mul (Math_sin (lit 1)) (lit (6667#10000)))) (lit 0),
     add (sub (mul (Math_cos (lit 1)) (lit (6667#10000)))
            (mul (Math_sin (lit 1)) (lit 0))) (lit 0),
     lit 0, lit 1) /\
  fragmentMain (fragColor out) = (lit 1, lit 0, lit 0, lit 1) /\
  (@lit A 0 = lit 0 -> @lit A 0 = lit 0 ->
   let x' := fst (fst (fst (position out))) in
   let y' := snd (fst (fst (position out))) in
   add (mul x' x') (mul y' y')
   = add (mul (lit 0) (lit 0)) (mul (lit (6667#10000)) (lit (6667#10000)))).
Proof.
  exact (vertexMain_turns_the_vertex (A := Exact.Real) Real_exact
           (lit 1) (lit 0) (lit 0) (lit 0) (lit (6667#10000))
           (lit 1, lit 0, lit 0)).
Defined.

Lemma rotations_compose_real :
  let A := Exact.Real in
  let v : @vec4 A := (lit 0, lit (6667#10000), lit 0, lit 1) in
  mulMatVec (transform (add (lit 1) (lit 2))) v
  = mulMatVec (transform (lit 1)) (mulMatVec (transform (lit 2)) v) /\
  mulMatVec (transform (lit 0)) v = v /\
  mulMatVec (transform (angleAfter 3)) v
  = Nat.iter 3 (mulMatVec (transform (lit (1#100)))) v.
Proof.
  exact (rotations_compose (A := Exact.Real) Real_exact Real_trig
           (lit 1) (lit 2) 3 (lit 0, lit (6667#10000), lit 0, lit 1)).
Defined.

(** * Animation frames and calls of [frame] *)

Section Callbacks.

Context {A : Arith}.

Lemma setAnimationFrames_idem (m m' : nat) (h : Host A) :
  setAnimationFrames m (setAnimationFrames m' h) = setAnimationFrames m h.
Proof. reflexivity. Qed.

(** [frame] looks at the pending callbacks only to add its own. *)
Lemma frame_setAnimationFrames (app : App A) (h : Host A) (m : nat) :
  frame app (setAnimationFrames m h)
  = (fst (frame app h), setAnimationFrames (S m) (snd (frame app h))).
Proof.
  destruct (isRotating app) eqn:Hr.
  - rewrite !(frame_rotating _ _ Hr). reflexivity.
  - rewrite !(frame_paused _ _ Hr). reflexivity.
Qed.

Lemma frames_setAnimationFrames (n : nat) : forall (app : App A) (h : Host A) m,
  frames n app (setAnimationFrames m h)
  = (fst (frames n app h), setAnimationFrames (n + m) (snd (frames n app h))).
Proof.
  induction n as [|n IH]; intros app h m; [reflexivity|].
  cbn [frames]. rewrite frame_setAnimationFrames.
  destruct (frame app h) as [app1 h1]. cbn [fst snd].
  rewrite IH. now rewrite Nat.add_succ_r.
Qed.

End Callbacks.

(** X13.  Animation frames delivered one after the other are calls of
    [frame] one after the other: from any state in which the script is
    running, [n] animation frames lead to the variables and to the trace,
    buffers and listeners that [n] consecutive calls of [frame] give, with
    one callback pending again. *)
Theorem animation_frames_are_frames
  (A : Arith) (e : Env) (n : nat) :
  forall (events : list Event) (app : App A) (h : Host A),
  run A e events = (Some app, h) ->
  run A e (events ++ repeat AnimationFrame n)
  = (Some (fst (frames n app h)),
     setAnimationFrames 1 (snd (frames n app h))).
Proof.
  induction n as [|n IH]; intros events app h Hrun.
  - cbn [repeat frames fst snd]. rewrite app_nil_r, Hrun.
    destruct (run_Some _ _ _ _ _ Hrun) as [_ HR]. f_equal.
    apply Host_ext; try reflexivity.
    cbn. apply (running_animationFrames _ _ _ _ HR).
  - destruct (run_Some _ _ _ _ _ Hrun) as [_ HR].
    cbn [repeat].
    change (events ++ AnimationFrame :: repeat AnimationFrame n)
      with (events ++ [AnimationFrame] ++ repeat AnimationFrame n).
    rewrite app_assoc.
    assert (Hstep : run A e (events ++ [AnimationFrame])
                    = (Some (fst (frame app h)),
                       setAnimationFrames 1 (snd (frame app h)))).
    { rewrite run_snoc, Hrun. cbn [dispatch].
      rewrite (running_animationFrames _ _ _ _ HR).
      now rewrite frame_setAnimationFrames. }
    rewrite (IH _ _ _ Hstep), frames_setAnimationFrames.
    cbn [frames fst snd]. destruct (frame app h) as [app1 h1].
    reflexivity.
Qed.

Lemma animation_frames_are_frames_after_click :
  exists (app : App Exact.Real) (h : Host Exact.Real),
    run Exact.Real webgpuBrowser [AnimationFrame; Click] = (Some app, h) /\
    run Exact.Real webgpuBrowser
      ([AnimationFrame; Click] ++ repeat AnimationFrame 3)
    = (Some (fst (frames 3 app h)),
       setAnimationFrames 1 (snd (frames 3 app h))).
Proof.
  destruct (run_Running (A := Exact.Real) webgpuBrowser
              [AnimationFrame; Click] eq_refl)
    as (app & h & Hrun & _).
  exists app, h. split; [exact Hrun|].
  apply (animation_frames_are_frames Exact.Real webgpuBrowser 3
           [AnimationFrame; Click] app h Hrun).
Defined.
